(** * Orbital View: the proxy gateway and the map client

    A shallow embedding of [src/proxy/proxy.js]: the four Express handlers
    that forward a browser request to a third-party API with the provider's
    key attached, and the [SatelliteExplorer] view-model that renders the
    answers.

    Conventions.
    - JavaScript numbers are IEEE binary64 values ([PrimFloat.float]).
    - [req.query], a JavaScript object read by key, is a [gmap string _].
    - Asynchronous handlers run to completion between two network waits, so
      a handler is a state transformer that may throw: the monad [M].
    - What the JavaScript engine and the libraries compute (sine, number
      printing, date printing, [JSON.parse], the network itself) is taken as
      a parameter of the section that uses it. *)

From Stdlib Require Import String Ascii ZArith List Bool Lia Strings.Byte.
From Stdlib Require Import Floats.PrimFloat DecimalString.
From stdpp Require Import base strings gmap list.

Set Warnings "-inexact-float,-register-all".
Open Scope string_scope.

(** ** Text *)

(** The double-quote character, as a one-character string. *)
Definition dq : string := String "034"%char EmptyString.

(** [occurs_in s t]: [s] is a contiguous part of [t]. *)
Definition occurs_in (s t : string) : Prop :=
  exists pre post, t = pre ++ s ++ post.

Fixpoint occurs_inb (s t : string) : bool :=
  String.prefix s t ||
  match t with
  | EmptyString => false
  | String _ t' => occurs_inb s t'
  end.

(** JavaScript truthiness of a string: only the empty string is falsy. *)
Definition truthy_string (s : string) : bool :=
  match s with
  | EmptyString => false
  | String _ _ => true
  end.

(** ** Exceptions and the handler monad *)

(** A thrown [Error]: only its message is ever read (by [console.error]). *)
Record exn := JsError { message : string }.

Inductive outcome (A : Type) : Type :=
| Returned (a : A)
| Thrown (e : exn).
Arguments Returned {A} a.
Arguments Thrown {A} e.

(** A computation over a state [St] that returns or throws. *)
Definition M (St A : Type) : Type := St -> outcome A * St.

Section Monad.
Context {St : Type}.

Definition ret {A} (a : A) : M St A := fun s => (Returned a, s).

Definition bind {A B} (c : M St A) (k : A -> M St B) : M St B :=
  fun s =>
    match c s with
    | (Returned a, s') => k a s'
    | (Thrown e, s') => (Thrown e, s')
    end.

Definition throw {A} (e : exn) : M St A := fun s => (Thrown e, s).

Definition modify (f : St -> St) : M St unit := fun s => (Returned tt, f s).

Definition gets {A} (f : St -> A) : M St A := fun s => (Returned (f s), s).

(** [try { body } catch (error) { handler error }] *)
Definition try_catch {A} (body : M St A) (handler : exn -> M St A) : M St A :=
  fun s =>
    match body s with
    | (Returned a, s') => (Returned a, s')
    | (Thrown e, s') => handler e s'
    end.

(** [try { body } finally { final }]: [final] runs on both exits and the
    exit of [body] is kept unless [final] itself throws. *)
Definition try_finally {A} (body : M St A) (final : M St unit) : M St A :=
  fun s =>
    match body s with
    | (r, s') =>
        match final s' with
        | (Returned _, s'') => (r, s'')
        | (Thrown e, s'') => (Thrown e, s'')
        end
    end.

Definition exec {A} (c : M St A) (s : St) : St := snd (c s).
End Monad.

Notation "'let*' x ':=' c 'in' k" := (bind c (fun x => k))
  (at level 10, x name, c at level 100, k at level 200).
Notation "'do*' c 'in' k" := (bind c (fun _ => k))
  (at level 10, c at level 100, k at level 200).

(** ** JSON values *)

Inductive json : Type :=
| JNull
| JBool (b : bool)
| JNum (x : float)
| JStr (s : string)
| JArr (items : list json)
| JObj (fields : list (string * json)).

(** [JSON.stringify]: the text [res.json] sends.  Printing a finite number
    is the engine's ([Number_toString]). *)
Definition hex_digit (n : nat) : string :=
  String.substring n 1 "0123456789abcdef".

Definition escape_char (c : ascii) : string :=
  let n := nat_of_ascii c in
  if Nat.eqb n 34 then "\" ++ dq
  else if Nat.eqb n 92 then "\\"
  else if Nat.eqb n 8 then "\b"
  else if Nat.eqb n 12 then "\f"
  else if Nat.eqb n 10 then "\n"
  else if Nat.eqb n 13 then "\r"
  else if Nat.eqb n 9 then "\t"
  else if Nat.ltb n 32 then "\u00" ++ hex_digit (n / 16) ++ hex_digit (n mod 16)
  else String c EmptyString.

Fixpoint escape (s : string) : string :=
  match s with
  | EmptyString => EmptyString
  | String c s' => escape_char c ++ escape s'
  end.

Definition quote (s : string) : string := dq ++ escape s ++ dq.

Section Stringify.
Variable Number_toString : float -> string.

Fixpoint JSON_stringify (j : json) : string :=
  match j with
  | JNull => "null"
  | JBool true => "true"
  | JBool false => "false"
  | JNum x => if is_nan x || is_infinity x then "null" else Number_toString x
  | JStr s => quote s
  | JArr items => "[" ++ String.concat "," (List.map JSON_stringify items) ++ "]"
  | JObj fields =>
      "{" ++ String.concat ","
               (List.map (fun kv => quote (fst kv) ++ ":" ++ JSON_stringify (snd kv)) fields)
      ++ "}"
  end.
End Stringify.

(** * The proxy gateway *)

Module Gateway.

(** [API_KEYS] *)
Module API_KEYS.
Definition N2YO : string := "9UK5QD-3BZDNQ-KWUH2A-5KFI".
Definition NASA : string := "69dIc1IkaKKMSRhmHXTC78gY0gZE5YHoThXBYWPo".
Definition OPENWEATHER : string := "bf997f92aee76cee24f92d4f8f4112e4".
Definition all : list string := [N2YO; NASA; OPENWEATHER].
End API_KEYS.

(** A value of [req.query]: a string, or what a repeated or bracketed
    parameter parses to. *)
Inductive qvalue : Type :=
| QStr (s : string)
| QArr (items : list qvalue)
| QObj (fields : list (string * qvalue)).

(** String conversion, as a template literal applies it. *)
Fixpoint toString (v : qvalue) : string :=
  match v with
  | QStr s => s
  | QArr items => String.concat "," (List.map toString items)
  | QObj _ => "[object Object]"
  end.

(** A destructured query parameter: [None] is [undefined]. *)
Definition truthy (p : option qvalue) : bool :=
  match p with
  | None => false
  | Some (QStr s) => truthy_string s
  | Some (QArr _) => true
  | Some (QObj _) => true
  end.

(** [${p}] *)
Definition tpl (p : option qvalue) : string :=
  match p with
  | None => "undefined"
  | Some v => toString v
  end.

(** The upstream answer as [node-fetch] hands it over. *)
Record Response := {
  status : Z;
  statusText : string;
  body : list (list byte)   (* the body stream, chunk by chunk *)
}.

(** [response.ok], the library's getter: a status in 200..299. *)
Definition ok (r : Response) : bool :=
  (200 <=? status r)%Z && (status r <=? 299)%Z.

(** [await fetch(url)] resolves with a response or rejects (network
    failure). *)
Inductive fetch_outcome : Type :=
| Resolved (r : Response)
| Rejected (e : exn).

(** What has been sent to the caller. *)
Inductive payload : Type :=
| NoBody
| JsonBody (j : json)                  (* [res.json(j)] *)
| Piped (chunks : list (list byte)).   (* [stream.pipe(res)] *)

(** The server-side state one request can change. *)
Record server := {
  calls : list string;                 (* upstream URLs fetched, in order *)
  console : list (string * exn);       (* [console.error(label, error)] *)
  statusCode : Z;                      (* [res.statusCode], 200 at first *)
  sent : payload
}.

Definition fresh : server :=
  {| calls := []; console := []; statusCode := 200; sent := NoBody |}.

(** [res.status(code).json(j)] *)
Definition res_status_json (code : Z) (j : json) : M server unit :=
  modify (fun s =>
    {| calls := calls s; console := console s; statusCode := code; sent := JsonBody j |}).

(** [res.json(j)] *)
Definition res_json (j : json) : M server unit :=
  modify (fun s =>
    {| calls := calls s; console := console s; statusCode := statusCode s; sent := JsonBody j |}).

(** [console.error(label, error)] *)
Definition console_error (label : string) (e : exn) : M server unit :=
  modify (fun s =>
    {| calls := calls s; console := (console s ++ [(label, e)])%list;
       statusCode := statusCode s; sent := sent s |}).

(** The characters of the answer's body. *)
Definition body_text (Number_toString : float -> string) (s : server) : string :=
  match sent s with
  | NoBody => EmptyString
  | JsonBody j => JSON_stringify Number_toString j
  | Piped chunks => string_of_list_byte (List.concat chunks)
  end.

(** The bytes of the answer's body. *)
Definition body_bytes (Number_toString : float -> string) (s : server) : list byte :=
  match sent s with
  | NoBody => []
  | JsonBody j => list_byte_of_string (JSON_stringify Number_toString j)
  | Piped chunks => List.concat chunks
  end.

(** The error object every failure path answers with: [{ error: msg }]. *)
Definition error_object (msg : string) : json := JObj [("error", JStr msg)].

Section Handlers.
(** The network: what fetching a URL gives. *)
Variable network : string -> fetch_outcome.
(** [JSON.parse] over the bytes of a body; [None] is a syntax error. *)
Variable JSON_parse : list byte -> option json.

(** [await fetch(url)] *)
Definition fetch (url : string) : M server Response :=
  do* modify (fun s =>
    {| calls := (calls s ++ [url])%list; console := console s;
       statusCode := statusCode s; sent := sent s |}) in
  match network url with
  | Resolved r => ret r
  | Rejected e => throw e
  end.

(** [await response.json()] *)
Definition response_json (r : Response) : M server json :=
  match JSON_parse (List.concat (body r)) with
  | Some j => ret j
  | None => throw (JsError "invalid json response body")
  end.

(** [response.body.pipe(res)] *)
Definition body_pipe (r : Response) : M server unit :=
  modify (fun s =>
    {| calls := calls s; console := console s; statusCode := statusCode s;
       sent := Piped (body r) |}).

(** The upstream URL templates, one per route. *)
Definition above_url (lat lng : option qvalue) : string :=
  "https://api.n2yo.com/rest/v1/satellite/above/" ++ tpl lat ++ "/" ++ tpl lng
  ++ "/0/70/0/?apiKey=" ++ API_KEYS.N2YO.

Definition passes_url (satId lat lng : option qvalue) : string :=
  "https://api.n2yo.com/rest/v1/satellite/radiopasses/" ++ tpl satId ++ "/" ++ tpl lat
  ++ "/" ++ tpl lng ++ "/0/7/10/?apiKey=" ++ API_KEYS.N2YO.

(** [const dim = 0.2], as the template literal prints it. *)
Definition dim : string := "0.2".

Definition earth_image_url (lat lng : option qvalue) : string :=
  "https://api.nasa.gov/planetary/earth/imagery?lat=" ++ tpl lat ++ "&lon=" ++ tpl lng
  ++ "&dim=" ++ dim ++ "&api_key=" ++ API_KEYS.NASA.

Definition weather_url (lat lng : option qvalue) : string :=
  "https://api.openweathermap.org/data/2.5/weather?lat=" ++ tpl lat ++ "&lon=" ++ tpl lng
  ++ "&units=metric&appid=" ++ API_KEYS.OPENWEATHER.

(** [app.get('/api/n2yo/above', ...)] *)
Definition above (query : gmap string qvalue) : M server unit :=
  try_catch
    (let lat := query !! "lat" in
     let lng := query !! "lng" in
     if negb (truthy lat) || negb (truthy lng) then
       res_status_json 400 (error_object "Latitude and longitude are required.")
     else
       let url := above_url lat lng in
       let* response := fetch url in
       if negb (ok response) then
         throw (JsError ("N2YO API Error: " ++ statusText response))
       else
         let* data := response_json response in
         res_json data)
    (fun error =>
       do* console_error "N2YO Above error:" error in
       res_status_json 500 (error_object "Failed to fetch satellite data.")).

(** [app.get('/api/n2yo/passes', ...)] *)
Definition passes (query : gmap string qvalue) : M server unit :=
  try_catch
    (let satId := query !! "satId" in
     let lat := query !! "lat" in
     let lng := query !! "lng" in
     if negb (truthy satId) || negb (truthy lat) || negb (truthy lng) then
       res_status_json 400
         (error_object "Satellite ID, latitude, and longitude are required.")
     else
       let url := passes_url satId lat lng in
       let* response := fetch url in
       if negb (ok response) then
         throw (JsError ("N2YO API Error: " ++ statusText response))
       else
         let* data := response_json response in
         res_json data)
    (fun error =>
       do* console_error "N2YO Passes error:" error in
       res_status_json 500 (error_object "Failed to fetch pass data.")).

(** [app.get('/api/nasa/earth-image', ...)] *)
Definition earth_image (query : gmap string qvalue) : M server unit :=
  try_catch
    (let lat := query !! "lat" in
     let lng := query !! "lng" in
     if negb (truthy lat) || negb (truthy lng) then
       res_status_json 400 (error_object "Latitude and longitude are required.")
     else
       let url := earth_image_url lat lng in
       let* response := fetch url in
       if negb (ok response) then
         throw (JsError ("NASA API Error: " ++ statusText response))
       else
         body_pipe response)
    (fun error =>
       do* console_error "NASA Earth Image error:" error in
       res_status_json 500 (error_object "Failed to fetch NASA image.")).

(** [app.get('/api/weather', ...)] *)
Definition weather (query : gmap string qvalue) : M server unit :=
  try_catch
    (let lat := query !! "lat" in
     let lng := query !! "lng" in
     if negb (truthy lat) || negb (truthy lng) then
       res_status_json 400 (error_object "Latitude and longitude are required.")
     else
       let url := weather_url lat lng in
       let* response := fetch url in
       if negb (ok response) then
         throw (JsError ("OpenWeatherMap API Error: " ++ statusText response))
       else
         let* data := response_json response in
         res_json data)
    (fun error =>
       do* console_error "Weather error:" error in
       res_status_json 500 (error_object "Failed to fetch weather data.")).

(** The four routes that reach a third-party service. *)
Inductive endpoint : Type := Above | Passes | EarthImage | Weather.

Definition route (ep : endpoint) : string :=
  match ep with
  | Above => "/api/n2yo/above"
  | Passes => "/api/n2yo/passes"
  | EarthImage => "/api/nasa/earth-image"
  | Weather => "/api/weather"
  end.

Definition handler (ep : endpoint) : gmap string qvalue -> M server unit :=
  match ep with
  | Above => above
  | Passes => passes
  | EarthImage => earth_image
  | Weather => weather
  end.

(** One request served from a fresh response object. *)
Definition serve (ep : endpoint) (query : gmap string qvalue) : server :=
  exec (handler ep query) fresh.
End Handlers.

Arguments above_url : simpl never.
Arguments passes_url : simpl never.
Arguments earth_image_url : simpl never.
Arguments weather_url : simpl never.

(** ** Vocabulary of the gateway's contract *)

(** The query parameters a route reads before it calls upstream. *)
Definition required (ep : endpoint) : list string :=
  match ep with
  | Passes => ["satId"; "lat"; "lng"]
  | Above | EarthImage | Weather => ["lat"; "lng"]
  end.

(** Every required parameter is there and truthy. *)
Definition has_required (ep : endpoint) (query : gmap string qvalue) : bool :=
  forallb (fun p => truthy (query !! p)) (required ep).

(** The URL a route fetches for a query. *)
Definition upstream_url (ep : endpoint) (query : gmap string qvalue) : string :=
  match ep with
  | Above => above_url (query !! "lat") (query !! "lng")
  | Passes => passes_url (query !! "satId") (query !! "lat") (query !! "lng")
  | EarthImage => earth_image_url (query !! "lat") (query !! "lng")
  | Weather => weather_url (query !! "lat") (query !! "lng")
  end.

(** The provider key a route attaches. *)
Definition credential (ep : endpoint) : string :=
  match ep with
  | Above | Passes => API_KEYS.N2YO
  | EarthImage => API_KEYS.NASA
  | Weather => API_KEYS.OPENWEATHER
  end.

(** The message of a route's 400 answer. *)
Definition validation_message (ep : endpoint) : string :=
  match ep with
  | Passes => "Satellite ID, latitude, and longitude are required."
  | Above | EarthImage | Weather => "Latitude and longitude are required."
  end.

(** The message of a route's 500 answer. *)
Definition failure_message (ep : endpoint) : string :=
  match ep with
  | Above => "Failed to fetch satellite data."
  | Passes => "Failed to fetch pass data."
  | EarthImage => "Failed to fetch NASA image."
  | Weather => "Failed to fetch weather data."
  end.

(** The label a route logs a failure under. *)
Definition failure_label (ep : endpoint) : string :=
  match ep with
  | Above => "N2YO Above error:"
  | Passes => "N2YO Passes error:"
  | EarthImage => "NASA Earth Image error:"
  | Weather => "Weather error:"
  end.

Definition provider (ep : endpoint) : string :=
  match ep with
  | Above | Passes => "N2YO"
  | EarthImage => "NASA"
  | Weather => "OpenWeatherMap"
  end.

(** The upstream call failed: the request was rejected, or the answer's
    status is not a success. *)
Definition upstream_failed (o : fetch_outcome) : Prop :=
  match o with
  | Rejected _ => True
  | Resolved r => ok r = false
  end.

(** The error a failed upstream call raises in the route: it carries the
    upstream detail. *)
Definition upstream_error (ep : endpoint) (o : fetch_outcome) : exn :=
  match o with
  | Rejected e => e
  | Resolved r => JsError (provider ep ++ " API Error: " ++ statusText r)
  end.

(** The text of the JSON object [{ error: msg }]. *)
Definition error_text (msg : string) : string :=
  "{" ++ (quote "error" ++ ":" ++ quote msg) ++ "}".

(** ** Sample requests and networks *)

Definition network_down : string -> fetch_outcome :=
  fun _ => Rejected (JsError "connect ECONNREFUSED").

Definition network_answering (r : Response) : string -> fetch_outcome :=
  fun _ => Resolved r.

Definition unavailable : Response :=
  {| status := 503; statusText := "Service Unavailable"; body := [] |}.

Definition picture : Response :=
  {| status := 200; statusText := "OK";
     body := [[x89; x50; x4e; x47]; [x0d; x0a]; []; [x1a; x0a; x00]] |}.

Definition no_JSON : list byte -> option json := fun _ => None.

Definition digits_only : float -> string := fun _ => "0".

Definition egypt : gmap string qvalue :=
  {[ "lat" := QStr "26.1626"; "lng" := QStr "32.7094" ]}.

Definition only_longitude : gmap string qvalue :=
  {[ "lng" := QStr "32.7094" ]}.

Definition off_the_globe : gmap string qvalue :=
  {[ "satId" := QStr "25544"; "lat" := QStr "999"; "lng" := QStr "east" ]}.

(** Unfolds a served request down to the tests the route performs. *)
Ltac run_route :=
  cbv [serve exec handler above passes earth_image weather try_catch bind ret throw
       modify fetch response_json body_pipe res_status_json res_json console_error
       fresh upstream_url has_required required forallb snd
       calls console statusCode sent] in *.

Ltac split_route ep query :=
  destruct ep; run_route;
  destruct (truthy (query !! "lat")), (truthy (query !! "lng"));
  try destruct (truthy (query !! "satId")).

End Gateway.

(** * The map client: [SatelliteExplorer] *)

Module Client.

(** ** Markup

    An HTML string assigned to [innerHTML] or bound to a popup is kept as
    the tree it parses to: white space between tags is dropped, and an
    interpolated value stays one text node.  A button of the satellite list
    carries what its click listener will track. *)
Inductive html : Type :=
| Text (s : string)
| Elem (tag className : string) (children : list html)
| SatelliteItem (className : string) (children : list html)
                (satid : float) (satname : string).

(** Every node of a tree, the root first. *)
Fixpoint nodes (h : html) : list html :=
  h :: match h with
       | Text _ => []
       | Elem _ _ children => List.flat_map nodes children
       | SatelliteItem _ children _ _ => List.flat_map nodes children
       end.

Definition class_of (h : html) : string :=
  match h with
  | Text _ => EmptyString
  | Elem _ c _ => c
  | SatelliteItem c _ _ _ => c
  end.

(** The elements of a tree whose class attribute starts with [c]. *)
Definition by_class (c : string) (h : html) : list html :=
  List.filter (fun n => String.prefix c (class_of n)) (nodes h).

(** ** Numbers *)

(** Truthiness of a number: [0], [-0] and [NaN] are falsy. *)
Definition truthy_number (x : float) : bool :=
  negb (PrimFloat.eqb x 0 || is_nan x).

(** An array length, as a template literal prints it. *)
Definition length_text (n : nat) : string :=
  NilEmpty.string_of_uint (Nat.to_uint n).

(** [Math.PI] *)
Definition Math_PI : float := 3.141592653589793%float.

(** [a[i]] read as a number: a missing element is [undefined], which
    arithmetic turns into [NaN]. *)
Definition number_at (i : nat) (a : list float) : float :=
  nth i a nan.

(** ** The answers of the services, at the shape the code reads

    A field the code tests before it reads it is an [option] ([None] is
    [undefined]); the others are taken to be there, with the type the
    service gives them.  An answer of another shape makes the method throw a
    [TypeError] into its own [catch] block; such answers are left out. *)

Record satellite := {
  satid : float;
  satname : string;
  satalt : option float
}.

Record above_data := { above : option (list satellite) }.

Record pass := {
  startUTC : float;
  duration : float;
  maxEl : float
}.

Record passes_data := { passes : option (list pass) }.

Record condition := { description : string }.

Record weather_data := {
  name : option string;
  weather : list condition;
  main_temp : float;          (* [data.main.temp] *)
  main_humidity : float;      (* [data.main.humidity] *)
  wind_speed : float;         (* [data.wind.speed] *)
  visibility : option float
}.

Record country := {
  name_common : string;                        (* [country.name.common] *)
  flag : option string;
  capitalInfo_latlng : option (list float);    (* [country.capitalInfo?.latlng] *)
  latlng : option (list float);
  capital : option (list string);
  population : option float;
  area : option float
}.

(** What [await fetch(url)] gives the page, with the body already read at
    the type the caller expects; [json = None] is a body [response.json()]
    rejects. *)
Record reply (T : Type) := { status : Z; json : option T }.
Arguments status {T} r.
Arguments json {T} r.

(** [response.ok] *)
Definition ok {T} (r : reply T) : bool :=
  (200 <=? status r)%Z && (status r <=? 299)%Z.

Inductive fetched (T : Type) : Type :=
| Answered (r : reply T)
| Failed (e : exn).
Arguments Answered {T} r.
Arguments Failed {T} e.

(** ** The page *)

Record divIcon := {
  icon_className : string;
  icon_html : html;
  iconSize : Z * Z
}.

(** What the marker layer group holds. *)
Inductive layer : Type :=
| Marker (position : list float) (icon : divIcon) (popup : option html)
| Polyline (points : list (list float)) (color : string) (dashArray : string).

Inductive viewport : Type :=
| SetView (center : list float) (zoom : Z)
| FitBounds (southWest northEast : list float).

(** An element whose text and classes the code changes. *)
Record element := {
  content : list html;
  textContent : string;
  classList : list string;
  disabled : bool
}.

Record page := {
  currentLocation : float * float;     (* [this.currentLocation]: lat, lng *)
  latInput : string;
  lngInput : string;
  satIdInput : string;
  countryInput : string;
  satMarkersLayer : list layer;        (* [this.satMarkersLayer] *)
  mapView : viewport;                  (* the last view set on [this.map] *)
  satList : list html;                 (* children of [#satList] *)
  weatherBox : element;
  locationStatus : element;
  findAboveBtn : element;
  countryBtn : element;
  alerts : list html;                  (* alerts appended to [document.body] *)
  console : list (string * exn)
}.

(** Field updates. *)
Definition set_satMarkersLayer (v : list layer) (p : page) : page :=
  {| currentLocation := currentLocation p;
     latInput := latInput p;
     lngInput := lngInput p;
     satIdInput := satIdInput p;
     countryInput := countryInput p;
     satMarkersLayer := v;
     mapView := mapView p;
     satList := satList p;
     weatherBox := weatherBox p;
     locationStatus := locationStatus p;
     findAboveBtn := findAboveBtn p;
     countryBtn := countryBtn p;
     alerts := alerts p;
     console := console p |}.

Definition set_mapView (v : viewport) (p : page) : page :=
  {| currentLocation := currentLocation p;
     latInput := latInput p;
     lngInput := lngInput p;
     satIdInput := satIdInput p;
     countryInput := countryInput p;
     satMarkersLayer := satMarkersLayer p;
     mapView := v;
     satList := satList p;
     weatherBox := weatherBox p;
     locationStatus := locationStatus p;
     findAboveBtn := findAboveBtn p;
     countryBtn := countryBtn p;
     alerts := alerts p;
     console := console p |}.

Definition set_satList (v : list html) (p : page) : page :=
  {| currentLocation := currentLocation p;
     latInput := latInput p;
     lngInput := lngInput p;
     satIdInput := satIdInput p;
     countryInput := countryInput p;
     satMarkersLayer := satMarkersLayer p;
     mapView := mapView p;
     satList := v;
     weatherBox := weatherBox p;
     locationStatus := locationStatus p;
     findAboveBtn := findAboveBtn p;
     countryBtn := countryBtn p;
     alerts := alerts p;
     console := console p |}.

Definition set_weatherBox (v : element) (p : page) : page :=
  {| currentLocation := currentLocation p;
     latInput := latInput p;
     lngInput := lngInput p;
     satIdInput := satIdInput p;
     countryInput := countryInput p;
     satMarkersLayer := satMarkersLayer p;
     mapView := mapView p;
     satList := satList p;
     weatherBox := v;
     locationStatus := locationStatus p;
     findAboveBtn := findAboveBtn p;
     countryBtn := countryBtn p;
     alerts := alerts p;
     console := console p |}.

Definition set_locationStatus (v : element) (p : page) : page :=
  {| currentLocation := currentLocation p;
     latInput := latInput p;
     lngInput := lngInput p;
     satIdInput := satIdInput p;
     countryInput := countryInput p;
     satMarkersLayer := satMarkersLayer p;
     mapView := mapView p;
     satList := satList p;
     weatherBox := weatherBox p;
     locationStatus := v;
     findAboveBtn := findAboveBtn p;
     countryBtn := countryBtn p;
     alerts := alerts p;
     console := console p |}.

Definition set_findAboveBtn (v : element) (p : page) : page :=
  {| currentLocation := currentLocation p;
     latInput := latInput p;
     lngInput := lngInput p;
     satIdInput := satIdInput p;
     countryInput := countryInput p;
     satMarkersLayer := satMarkersLayer p;
     mapView := mapView p;
     satList := satList p;
     weatherBox := weatherBox p;
     locationStatus := locationStatus p;
     findAboveBtn := v;
     countryBtn := countryBtn p;
     alerts := alerts p;
     console := console p |}.

Definition set_countryBtn (v : element) (p : page) : page :=
  {| currentLocation := currentLocation p;
     latInput := latInput p;
     lngInput := lngInput p;
     satIdInput := satIdInput p;
     countryInput := countryInput p;
     satMarkersLayer := satMarkersLayer p;
     mapView := mapView p;
     satList := satList p;
     weatherBox := weatherBox p;
     locationStatus := locationStatus p;
     findAboveBtn := findAboveBtn p;
     countryBtn := v;
     alerts := alerts p;
     console := console p |}.

Definition set_alerts (v : list html) (p : page) : page :=
  {| currentLocation := currentLocation p;
     latInput := latInput p;
     lngInput := lngInput p;
     satIdInput := satIdInput p;
     countryInput := countryInput p;
     satMarkersLayer := satMarkersLayer p;
     mapView := mapView p;
     satList := satList p;
     weatherBox := weatherBox p;
     locationStatus := locationStatus p;
     findAboveBtn := findAboveBtn p;
     countryBtn := countryBtn p;
     alerts := v;
     console := console p |}.

Definition set_console (v : list (string * exn)) (p : page) : page :=
  {| currentLocation := currentLocation p;
     latInput := latInput p;
     lngInput := lngInput p;
     satIdInput := satIdInput p;
     countryInput := countryInput p;
     satMarkersLayer := satMarkersLayer p;
     mapView := mapView p;
     satList := satList p;
     weatherBox := weatherBox p;
     locationStatus := locationStatus p;
     findAboveBtn := findAboveBtn p;
     countryBtn := countryBtn p;
     alerts := alerts p;
     console := v |}.

Definition with_content (v : list html) (e : element) : element :=
  {| content := v; textContent := textContent e; classList := classList e; disabled := disabled e |}.

Definition with_textContent (v : string) (e : element) : element :=
  {| content := content e; textContent := v; classList := classList e; disabled := disabled e |}.

Definition with_classList (v : list string) (e : element) : element :=
  {| content := content e; textContent := textContent e; classList := v; disabled := disabled e |}.

Definition with_disabled (v : bool) (e : element) : element :=
  {| content := content e; textContent := textContent e; classList := classList e; disabled := v |}.

(** [element.classList.add(c)] *)
Definition classList_add (c : string) (e : element) : element :=
  if existsb (String.eqb c) (classList e) then e
  else with_classList (classList e ++ [c])%list e.

(** [console.error(label, error)] *)
Definition console_error (label : string) (e : exn) : M page unit :=
  modify (fun p => set_console (console p ++ [(label, e)])%list p).

(** [await fetch(url)] against a given service. *)
Definition fetch {T} (service : string -> fetched T) (url : string) : M page (reply T) :=
  match service url with
  | Answered r => ret r
  | Failed e => throw e
  end.

(** [await response.json()] *)
Definition response_json {T} (r : reply T) : M page T :=
  match json r with
  | Some data => ret data
  | None => throw (JsError "Unexpected token in JSON")
  end.

(** [${response.status}] *)
Definition status_text (code : Z) : string :=
  NilEmpty.string_of_int (Z.to_int code).

(** *** Leaflet calls on [this.map] and [this.satMarkersLayer]

    The calls are recorded with their arguments; what Leaflet itself does
    with coordinates that are not numbers is not part of this file. *)

Definition clearLayers : M page unit :=
  modify (set_satMarkersLayer []).

(** [layer.addTo(this.satMarkersLayer)]; the result names the new layer by
    its place in the group, for a later [bindPopup]. *)
Definition addTo (l : layer) : M page nat :=
  fun p => (Returned (length (satMarkersLayer p)),
            set_satMarkersLayer (satMarkersLayer p ++ [l])%list p).

(** [marker.bindPopup(content).openPopup()] on a marker already in the group. *)
Definition bindPopup (marker : nat) (popupContent : html) : M page unit :=
  modify (fun p =>
    set_satMarkersLayer
      (alter (fun l => match l with
                       | Marker position icon _ => Marker position icon (Some popupContent)
                       | Polyline _ _ _ => l
                       end) marker (satMarkersLayer p)) p).

Definition setView (center : list float) (zoom : Z) : M page unit :=
  modify (set_mapView (SetView center zoom)).

Definition fitBounds (southWest northEast : list float) : M page unit :=
  modify (set_mapView (FitBounds southWest northEast)).

(** *** UI helpers *)

Definition icons : gmap string string :=
  {[ "info" := "ℹ"; "success" := "Success"; "warning" := "Warning!"; "error" := "Error" ]}.

(** [getAlertIcon(type)]: [icons[type] || icons['info']] *)
Definition getAlertIcon (type : string) : string :=
  match icons !! type with
  | Some icon => icon
  | None => default EmptyString (icons !! "info")
  end.

(** The element [showAlert] creates. *)
Definition alert_element (message type : string) : html :=
  Elem "div" ("custom-alert alert-" ++ type)
    [Elem "div" "alert-content"
       [Elem "span" "alert-icon" [Text (getAlertIcon type)];
        Elem "span" "alert-message" [Text message];
        Elem "button" "alert-close" [Text "x"]]].

(** [showAlert(message, type)]: the alert is appended to the page.  (Its
    removal, five seconds later or on a click, is a later event.) *)
Definition showAlert (message type : string) : M page unit :=
  let alert := alert_element message type in
  modify (fun p => set_alerts (alerts p ++ [alert])%list p).

(** [updateLocationStatus(message)] *)
Definition updateLocationStatus (message : string) : M page unit :=
  modify (fun p =>
    set_locationStatus
      (classList_add "status-active" (with_textContent message (locationStatus p))) p).

(** [array.forEach((x, index) => f x index)] *)
Fixpoint forEach {A} (l : list A) (index : nat) (f : A -> nat -> M page unit) : M page unit :=
  match l with
  | [] => ret tt
  | x :: l' => do* f x index in forEach l' (S index) f
  end.

(** What the JavaScript engine computes for the page. *)
Class Engine := {
  Number_toString : float -> string;           (* [${x}] *)
  Number_toFixed : float -> nat -> string;     (* [x.toFixed(d)] *)
  Number_toLocaleString : float -> string;     (* [x.toLocaleString()] *)
  Math_round : float -> float;
  Math_sin : float -> float;
  Math_cos : float -> float;
  Date_toLocaleString : float -> string;       (* [new Date(ms).toLocaleString()] *)
  Date_toLocaleDateString : float -> string;   (* [new Date(ms).toLocaleDateString()] *)
  String_trim : string -> string;
  encodeURIComponent : string -> string
}.

(** The services the page calls: three gateway routes and the public
    country lookup. *)
Class Services := {
  service_above : string -> fetched above_data;
  service_passes : string -> fetched passes_data;
  service_weather : string -> fetched weather_data;
  service_countries : string -> fetched (list country)
}.

Section Methods.
Context {js : Engine} {net : Services}.

(** The markup written when no satellite is listed. *)
Definition no_satellites_panel : html :=
  Elem "div" "no-satellites"
    [Elem "div" "no-data-icon" [Text "📡"];
     Elem "p" "" [Text "No satellites detected above your location"];
     Elem "small" "" [Text "Try a different time or location"]].

(** [renderSatelliteList(satellites)] *)
Definition renderSatelliteList (satellites : list satellite) : M page unit :=
  do* modify (set_satList []) in
  if Nat.eqb (length satellites) 0 then
    modify (set_satList [no_satellites_panel])
  else
    forEach satellites 0 (fun sat index =>
      let item :=
        SatelliteItem "satellite-item"
          [Elem "div" "satellite-name" [Text (satname sat)];
           Elem "div" "satellite-id" [Text ("NORAD ID: " ++ Number_toString (satid sat))];
           Elem "div" "satellite-altitude"
             [Text (match satalt sat with
                    | Some alt =>
                        if truthy_number alt then Number_toFixed alt 0 ++ " km altitude"
                        else "Altitude unknown"
                    | None => "Altitude unknown"
                    end)]]
          (satid sat) (satname sat) in
      modify (fun p => set_satList (satList p ++ [item])%list p)).

(** The URL [findSatellitesAbove] fetches. *)
Definition above_request (lat lng : string) : string :=
  "/api/n2yo/above?lat=" ++ lat ++ "&lng=" ++ lng.

(** [findSatellitesAbove()] *)
Definition findSatellitesAbove : M page unit :=
  let* lat := gets latInput in
  let* lng := gets lngInput in
  if negb (truthy_string lat) || negb (truthy_string lng) then
    showAlert "Please set your location coordinates first" "warning"
  else
    let* btn := gets findAboveBtn in
    let originalText := textContent btn in
    do* modify (fun p =>
          set_findAboveBtn
            (with_disabled true (with_textContent "Scanning Orbital Space..." (findAboveBtn p)))
            p) in
    try_finally
      (try_catch
         (let* response := fetch service_above (above_request lat lng) in
          if negb (ok response) then
            throw (JsError ("API Error: " ++ status_text (status response)))
          else
            let* data := response_json response in
            do* renderSatelliteList (default [] (above data)) in
            match above data with
            | Some found =>
                if Nat.ltb 0 (length found) then
                  updateLocationStatus
                    ("Found " ++ length_text (length found) ++ " satellites overhead")
                else ret tt
            | None => ret tt
            end)
         (fun error =>
            do* console_error "Satellite tracking error:" error in
            showAlert "Unable to retrieve satellite data. Check your connection." "error"))
      (modify (fun p =>
         set_findAboveBtn
           (with_disabled false (with_textContent originalText (findAboveBtn p))) p)).

(** [createPassPopup(name, pass, passTime)]; [passTime] is the time value
    of the [Date], in milliseconds. *)
Definition createPassPopup (name : string) (pass : pass) (passTime : float) : html :=
  let duration := Math_round (duration pass) in
  let maxElevation := maxEl pass in
  Elem "div" "pass-popup"
    [Elem "h6" "pass-title" [Text name];
     Elem "div" "pass-details"
       [Elem "div" "pass-row"
          [Elem "span" "pass-label" [Text "Next Pass:"];
           Elem "span" "pass-value" [Text (Date_toLocaleString passTime)]];
        Elem "div" "pass-row"
          [Elem "span" "pass-label" [Text "Duration:"];
           Elem "span" "pass-value" [Text (Number_toString duration ++ " seconds")]];
        Elem "div" "pass-row"
          [Elem "span" "pass-label" [Text "Max Elevation:"];
           Elem "span" "pass-value" [Text (Number_toString maxElevation ++ "°")]];
        Elem "div"
          ("pass-status " ++
           (if (30 <? maxElevation)%float then "excellent"
            else if (15 <? maxElevation)%float then "good" else "fair"))
          [Text (if (30 <? maxElevation)%float then "Excellent visibility"
                 else if (15 <? maxElevation)%float then "Good visibility"
                 else "Fair visibility")]]].

Definition steps : float := 20%float.

(** The loop [for (let i = 0; i <= steps; i++)] of [visualizeSatellitePass],
    with [fuel] bounding its iterations. *)
Fixpoint track_loop (fuel : nat) (lat lng i : float) (trackPoints : list (list float))
  : list (list float) :=
  match fuel with
  | O => trackPoints
  | S fuel' =>
      if (i <=? steps)%float then
        let progress := (i / steps)%float in
        let trackLat := (lat + Math_sin (progress * Math_PI) * 0.5)%float in
        let trackLng := (lng + Math_cos (progress * Math_PI * 2) * 0.8)%float in
        track_loop fuel' lat lng (i + 1)%float (trackPoints ++ [[trackLat; trackLng]])%list
      else trackPoints
  end.

Definition pass_marker_icon (className label : string) : divIcon :=
  {| icon_className := className;
     icon_html := Elem "div" "" [Text label];
     iconSize := (50, 20)%Z |}.

(** [visualizeSatellitePass(pass, lat, lng)] *)
Definition visualizeSatellitePass (pass : pass) (lat lng : float) : M page unit :=
  let trackPoints := track_loop 64 lat lng 0%float [] in
  let* _ := addTo (Polyline trackPoints "#FFD166" "10, 5") in
  let* _ := addTo (Marker (nth 0 trackPoints [])
                     (pass_marker_icon "pass-marker start-marker" "START") None) in
  let* _ := addTo (Marker (nth (length trackPoints - 1) trackPoints [])
                     (pass_marker_icon "pass-marker end-marker" "END") None) in
  ret tt.

(** The URL [trackSatelliteById] fetches. *)
Definition passes_request (satId : string) (lat lng : float) : string :=
  "/api/n2yo/passes?satId=" ++ satId ++ "&lat=" ++ Number_toString lat
  ++ "&lng=" ++ Number_toString lng.

(** [trackSatelliteById(satId, name)]; [satId] as the request URL prints it. *)
Definition trackSatelliteById (satId name : string) : M page unit :=
  let* location := gets currentLocation in
  let lat := fst location in
  let lng := snd location in
  try_catch
    (let* response := fetch service_passes (passes_request satId lat lng) in
     if negb (ok response) then
       throw (JsError ("Pass prediction error: " ++ status_text (status response)))
     else
       let* data := response_json response in
       if match passes data with
          | None => true
          | Some found => Nat.eqb (length found) 0
          end
       then showAlert ("No upcoming passes found for " ++ name) "info"
       else
         match passes data with
         | Some (pass :: _) =>                          (* [data.passes[0]] *)
             let passTime := (startUTC pass * 1000)%float in
             let popupContent := createPassPopup name pass passTime in
             do* clearLayers in
             let* groundMarker :=
               addTo (Marker [lat; lng]
                        {| icon_className := "ground-station-marker";
                           icon_html := Elem "div" "station-icon" [Text "🏢"];
                           iconSize := (30, 30)%Z |} None) in
             do* visualizeSatellitePass pass lat lng in
             do* bindPopup groundMarker popupContent in
             do* setView [lat; lng] 8 in
             updateLocationStatus
               ("Tracking " ++ name ++ " - Next pass: " ++ Date_toLocaleDateString passTime)
         | _ => throw (JsError "TypeError: Cannot read properties of undefined")
         end)
    (fun error =>
       do* console_error "Pass prediction error:" error in
       showAlert "Unable to predict satellite passes" "error").


(** One row of the weather panel. *)
Definition weather_detail (label value : string) : html :=
  Elem "div" "weather-detail"
    [Elem "span" "weather-label" [Text label];
     Elem "span" "weather-value" [Text value]].

(** [displayWeatherData(data)] *)
Definition displayWeatherData (data : weather_data) : M page unit :=
  let temp := Math_round (main_temp data) in
  let windSpeed := wind_speed data in
  let humidity := main_humidity data in
  let visibility :=
    match visibility data with
    | Some v => if truthy_number v then Number_toFixed (v / 1000)%float 1 else "N/A"
    | None => "N/A"
    end in
  match weather data with
  | [] => throw (JsError "TypeError: Cannot read properties of undefined")
  | condition :: _ =>                                  (* [data.weather[0]] *)
      do* modify (fun p =>
            set_weatherBox
              (with_content
                 [Elem "div" "weather-data"
                    [Elem "div" "weather-location"
                       [Text (match name data with
                              | Some n => if truthy_string n then n else "Current Location"
                              | None => "Current Location"
                              end)];
                     Elem "div" "weather-condition" [Text (description condition)];
                     Elem "div" "weather-details"
                       [weather_detail "Temperature:" (Number_toString temp ++ "°C");
                        weather_detail "Wind Speed:" (Number_toString windSpeed ++ " m/s");
                        weather_detail "Humidity:" (Number_toString humidity ++ "%");
                        weather_detail "Visibility:" (visibility ++ " km")]]]
                 (weatherBox p)) p) in
      modify (fun p =>
        set_weatherBox (classList_add "visible" (classList_add "fade-in" (weatherBox p))) p)
  end.

(** The URL [fetchWeatherData] fetches. *)
Definition weather_request (lat lng : string) : string :=
  "/api/weather?lat=" ++ lat ++ "&lng=" ++ lng.

(** [fetchWeatherData(lat, lng)]; the coordinates as the URL prints them. *)
Definition fetchWeatherData (lat lng : string) : M page unit :=
  try_catch
    (let* response := fetch service_weather (weather_request lat lng) in
     if negb (ok response) then
       throw (JsError ("Weather API Error: " ++ status_text (status response)))
     else
       let* data := response_json response in
       displayWeatherData data)
    (fun error =>
       do* console_error "Weather data error:" error in
       modify (fun p =>
         set_weatherBox
           (with_content
              [Elem "div" "weather-error"
                 [Elem "div" "error-icon" [Elem "i" "bi bi-x-circle-fill text-danger" []];
                  Elem "p" "" [Text "Weather data unavailable"]]]
              (weatherBox p)) p)).

(** [a || b] on two optional arrays (an array is always truthy). *)
Definition or_else {A} (a b : option A) : option A :=
  match a with
  | Some _ => a
  | None => b
  end.

(** [s || fallback] on an optional string. *)
Definition string_or (s : option string) (fallback : string) : string :=
  match s with
  | Some v => if truthy_string v then v else fallback
  | None => fallback
  end.

Definition country_row (label value : string) : html :=
  Elem "div" "country-row"
    [Elem "span" "country-label" [Text label];
     Elem "span" "country-value" [Text value]].

(** [createCountryPopup(country)] *)
Definition createCountryPopup (country : country) : html :=
  let capital :=
    string_or (match capital country with
               | Some names => head names
               | None => None
               end) "Not specified" in
  let population :=
    match population country with
    | Some n => if truthy_number n then Number_toLocaleString n else "Unknown"
    | None => "Unknown"
    end in
  let area :=
    match area country with
    | Some a => if truthy_number a then Number_toLocaleString a ++ " km²" else "Unknown"
    | None => "Unknown"
    end in
  Elem "div" "country-popup"
    [Elem "h6" "" [Text (name_common country ++ " " ++ string_or (flag country) "")];
     Elem "div" "country-details"
       [country_row "Capital:" capital;
        country_row "Population:" population;
        country_row "Area:" area]].

(** The URL [searchCountry] fetches. *)
Definition country_request (countryName : string) : string :=
  "https://restcountries.com/v3.1/name/" ++ encodeURIComponent countryName
  ++ "?fullText=false".

(** [searchCountry()] *)
Definition searchCountry : M page unit :=
  let* typed := gets countryInput in
  let countryName := String_trim typed in
  if negb (truthy_string countryName) then
    showAlert "Please enter a country name" "warning"
  else
    let* btn := gets countryBtn in
    let originalText := textContent btn in
    do* modify (fun p =>
          set_countryBtn
            (with_disabled true (with_textContent "Locating..." (countryBtn p))) p) in
    try_finally
      (try_catch
         (let* response := fetch service_countries (country_request countryName) in
          if negb (ok response) then throw (JsError "Country not found")
          else
            let* countries := response_json response in
            match countries with
            | [] => throw (JsError "TypeError: Cannot read properties of undefined")
            | country :: _ =>                          (* [countries[0]] *)
                match or_else (capitalInfo_latlng country) (latlng country) with
                | None => throw (JsError "Coordinates not available")
                | Some latlng =>
                    do* fitBounds
                          [(number_at 0 latlng - 3)%float; (number_at 1 latlng - 3)%float]
                          [(number_at 0 latlng + 3)%float; (number_at 1 latlng + 3)%float] in
                    do* clearLayers in
                    let* countryMarker :=
                      addTo (Marker latlng
                               {| icon_className := "country-marker";
                                  icon_html :=
                                    Elem "div" "country-flag"
                                      [Text (string_or (flag country) "🏛️")];
                                  iconSize := (40, 40)%Z |} None) in
                    let popupContent := createCountryPopup country in
                    do* bindPopup countryMarker popupContent in
                    updateLocationStatus ("Located: " ++ name_common country)
                end
            end)
         (fun error =>
            do* console_error "Country search error:" error in
            showAlert "Country not found. Please check spelling." "error"))
      (modify (fun p =>
         set_countryBtn
           (with_disabled false (with_textContent originalText (countryBtn p))) p)).
End Methods.

(** ** Vocabulary of the page's contract *)

(** The status line of a pass popup. *)
Definition status_node (label text : string) : html :=
  Elem "div" ("pass-status " ++ label) [Text text].

(** The value shown by a weather row with a given label. *)
Definition row_value (label : string) (h : html) : option string :=
  match h with
  | Elem _ c [Elem _ _ [Text l]; Elem _ _ [Text v]] =>
      if String.eqb c "weather-detail" && String.eqb l label then Some v else None
  | _ => None
  end.

(** The values the weather panel shows under a label. *)
Definition shown (label : string) (panel : list html) : list string :=
  omap (row_value label) (List.flat_map nodes panel).



(** ** Sample engine, services, pages and answers *)

Definition sample_engine : Engine :=
  {| Number_toString := fun _ => "7";
     Number_toFixed := fun _ _ => "7.0";
     Number_toLocaleString := fun _ => "7";
     Math_round := fun x => x;
     Math_sin := fun _ => 0%float;
     Math_cos := fun _ => 1%float;
     Date_toLocaleString := fun _ => "1/1/2026, 12:00:00 AM";
     Date_toLocaleDateString := fun _ => "1/1/2026";
     String_trim := fun s => s;
     encodeURIComponent := fun s => s |}.

Definition unreachable {T} : string -> fetched T :=
  fun _ => Failed (JsError "Failed to fetch").

Definition answering {T} (r : reply T) : string -> fetched T :=
  fun _ => Answered r.

Definition sample_services
  (a : string -> fetched above_data) (p : string -> fetched passes_data)
  (w : string -> fetched weather_data) (c : string -> fetched (list country)) : Services :=
  {| service_above := a; service_passes := p; service_weather := w; service_countries := c |}.

Definition blank (text : string) : element :=
  {| content := []; textContent := text; classList := []; disabled := false |}.

Definition old_marker : layer :=
  Marker [26.1626%float; 32.7094%float]
    {| icon_className := "custom-location-marker";
       icon_html := Elem "div" "marker-pulse" [];
       iconSize := (20, 20)%Z |} None.

Definition start_page : page :=
  {| currentLocation := (26.1626%float, 32.7094%float);
     latInput := "26.162600";
     lngInput := "32.709400";
     satIdInput := "25544";
     countryInput := "Atlantis";
     satMarkersLayer := [old_marker];
     mapView := SetView [26.1626%float; 32.7094%float] 5;
     satList := [];
     weatherBox := blank "";
     locationStatus := blank "";
     findAboveBtn := blank "Scan Overhead Satellites";
     countryBtn := blank "Search";
     alerts := [];
     console := [] |}.

Definition high_pass : pass :=
  {| startUTC := 1767225600%float; duration := 600%float; maxEl := 31%float |}.
Definition middle_pass : pass :=
  {| startUTC := 1767229200%float; duration := 420%float; maxEl := 20%float |}.
Definition low_pass : pass :=
  {| startUTC := 1767232800%float; duration := 180%float; maxEl := 10%float |}.


Definition no_flagpole : country :=
  {| name_common := "Atlantis"; flag := None; capitalInfo_latlng := None; latlng := None;
     capital := None; population := None; area := None |}.







(** Unfolds the monad and the helpers of a page method. *)
Ltac run_page :=
  cbv [exec bind ret throw gets modify try_catch try_finally fetch response_json
       console_error showAlert updateLocationStatus clearLayers addTo bindPopup
       setView fitBounds renderSatelliteList forEach].

End Client.

(** * The map client: location, imagery *)

Module Controls.
Import Client.

(** ** Strings read as numbers *)

(** The two readings the page uses: [ToNumber] is what [isNaN(s)], a
    comparison [s >= x] and Leaflet's own [+s] apply to a string;
    [parseFloat] is the global function. *)
Class Conversions := {
  ToNumber : string -> float;
  parseFloat : string -> float
}.

(** Further field updates of the page. *)
Definition set_currentLocation (v : float * float) (p : page) : page :=
  {| currentLocation := v;
     latInput := latInput p;
     lngInput := lngInput p;
     satIdInput := satIdInput p;
     countryInput := countryInput p;
     satMarkersLayer := satMarkersLayer p;
     mapView := mapView p;
     satList := satList p;
     weatherBox := weatherBox p;
     locationStatus := locationStatus p;
     findAboveBtn := findAboveBtn p;
     countryBtn := countryBtn p;
     alerts := alerts p;
     console := console p |}.

Definition set_latInput (v : string) (p : page) : page :=
  {| currentLocation := currentLocation p;
     latInput := v;
     lngInput := lngInput p;
     satIdInput := satIdInput p;
     countryInput := countryInput p;
     satMarkersLayer := satMarkersLayer p;
     mapView := mapView p;
     satList := satList p;
     weatherBox := weatherBox p;
     locationStatus := locationStatus p;
     findAboveBtn := findAboveBtn p;
     countryBtn := countryBtn p;
     alerts := alerts p;
     console := console p |}.

Definition set_lngInput (v : string) (p : page) : page :=
  {| currentLocation := currentLocation p;
     latInput := latInput p;
     lngInput := v;
     satIdInput := satIdInput p;
     countryInput := countryInput p;
     satMarkersLayer := satMarkersLayer p;
     mapView := mapView p;
     satList := satList p;
     weatherBox := weatherBox p;
     locationStatus := locationStatus p;
     findAboveBtn := findAboveBtn p;
     countryBtn := countryBtn p;
     alerts := alerts p;
     console := console p |}.

(** ** The rest of the document *)

(** What an image element can point at: an object URL made by
    [URL.createObjectURL], or any other address (the empty one when the
    element has no source). *)
Inductive resource : Type :=
| ObjectURL (id : nat)
| Address (url : string).

(** Truthiness of [imgEl.src]. *)
Definition truthy_resource (r : resource) : bool :=
  match r with
  | ObjectURL _ => true
  | Address url => truthy_string url
  end.

(** The page together with the elements and the object URLs the location
    and imagery methods work on. *)
Record app := {
  page_of : page;
  useLocationBtn : element;
  getImageBtn : element;
  imgInfo : element;
  earthImg : element;
  earthImg_src : resource;                (* [earthImg.src] *)
  object_urls : gmap nat (list byte);     (* the live object URLs and their blobs *)
  next_object_url : nat                   (* the next URL [createObjectURL] makes *)
}.

Definition set_page_of (v : page) (a : app) : app :=
  {| page_of := v;
     useLocationBtn := useLocationBtn a;
     getImageBtn := getImageBtn a;
     imgInfo := imgInfo a;
     earthImg := earthImg a;
     earthImg_src := earthImg_src a;
     object_urls := object_urls a;
     next_object_url := next_object_url a |}.

Definition set_useLocationBtn (v : element) (a : app) : app :=
  {| page_of := page_of a;
     useLocationBtn := v;
     getImageBtn := getImageBtn a;
     imgInfo := imgInfo a;
     earthImg := earthImg a;
     earthImg_src := earthImg_src a;
     object_urls := object_urls a;
     next_object_url := next_object_url a |}.

Definition set_getImageBtn (v : element) (a : app) : app :=
  {| page_of := page_of a;
     useLocationBtn := useLocationBtn a;
     getImageBtn := v;
     imgInfo := imgInfo a;
     earthImg := earthImg a;
     earthImg_src := earthImg_src a;
     object_urls := object_urls a;
     next_object_url := next_object_url a |}.

Definition set_imgInfo (v : element) (a : app) : app :=
  {| page_of := page_of a;
     useLocationBtn := useLocationBtn a;
     getImageBtn := getImageBtn a;
     imgInfo := v;
     earthImg := earthImg a;
     earthImg_src := earthImg_src a;
     object_urls := object_urls a;
     next_object_url := next_object_url a |}.

Definition set_earthImg (v : element) (a : app) : app :=
  {| page_of := page_of a;
     useLocationBtn := useLocationBtn a;
     getImageBtn := getImageBtn a;
     imgInfo := imgInfo a;
     earthImg := v;
     earthImg_src := earthImg_src a;
     object_urls := object_urls a;
     next_object_url := next_object_url a |}.

Definition set_earthImg_src (v : resource) (a : app) : app :=
  {| page_of := page_of a;
     useLocationBtn := useLocationBtn a;
     getImageBtn := getImageBtn a;
     imgInfo := imgInfo a;
     earthImg := earthImg a;
     earthImg_src := v;
     object_urls := object_urls a;
     next_object_url := next_object_url a |}.

Definition set_object_urls (v : gmap nat (list byte)) (a : app) : app :=
  {| page_of := page_of a;
     useLocationBtn := useLocationBtn a;
     getImageBtn := getImageBtn a;
     imgInfo := imgInfo a;
     earthImg := earthImg a;
     earthImg_src := earthImg_src a;
     object_urls := v;
     next_object_url := next_object_url a |}.

Definition set_next_object_url (v : nat) (a : app) : app :=
  {| page_of := page_of a;
     useLocationBtn := useLocationBtn a;
     getImageBtn := getImageBtn a;
     imgInfo := imgInfo a;
     earthImg := earthImg a;
     earthImg_src := earthImg_src a;
     object_urls := object_urls a;
     next_object_url := v |}.

(** A method of the page, run inside the larger state. *)
Definition on_page {A} (c : M page A) : M app A :=
  fun a =>
    match c (page_of a) with
    | (r, p') => (r, set_page_of p' a)
    end.

(** [element.classList.remove(c)] *)
Definition classList_remove (c : string) (e : element) : element :=
  with_classList (List.filter (fun x => negb (String.eqb x c)) (classList e)) e.

(** [resetButton(button, originalText)] *)
Definition resetButton (button : element) (originalText : string) : element :=
  with_disabled false (with_textContent originalText button).

(** [URL.revokeObjectURL(url)]: an address that is no object URL is left
    alone. *)
Definition revokeObjectURL (url : resource) : M app unit :=
  match url with
  | ObjectURL id => modify (fun a => set_object_urls (delete id (object_urls a)) a)
  | Address _ => ret tt
  end.

(** [URL.createObjectURL(blob)] *)
Definition createObjectURL (blob : list byte) : M app resource :=
  fun a =>
    (Returned (ObjectURL (next_object_url a)),
     set_next_object_url (S (next_object_url a))
       (set_object_urls (<[next_object_url a := blob]> (object_urls a)) a)).

(** What the imagery route gives the page; [blob = None] is a body
    [response.blob()] rejects. *)
Record image_reply := { image_status : Z; blob : option (list byte) }.

Definition image_ok (r : image_reply) : bool :=
  (200 <=? image_status r)%Z && (image_status r <=? 299)%Z.

Inductive image_fetched : Type :=
| ImageAnswered (r : image_reply)
| ImageFailed (e : exn).

Class ImageService := { service_image : string -> image_fetched }.

(** What [navigator.geolocation.getCurrentPosition] calls back with. *)
Inductive position_error : Type :=
| PERMISSION_DENIED
| POSITION_UNAVAILABLE
| TIMEOUT
| other_error.

Inductive located : Type :=
| Position (latitude longitude : float)
| PositionError (error : position_error).

Section Methods.
Context {js : Engine} {conv : Conversions} {net : Services} {pictures : ImageService}.

(** [isValidCoordinate(lat, lng)], on the strings of the two boxes. *)
Definition isValidCoordinate (lat lng : string) : bool :=
  negb (is_nan (ToNumber lat)) && negb (is_nan (ToNumber lng)) &&
  (-90 <=? ToNumber lat)%float && (ToNumber lat <=? 90)%float &&
  (-180 <=? ToNumber lng)%float && (ToNumber lng <=? 180)%float.

(** [updateInputs(lat, lng)] *)
Definition updateInputs (lat lng : string) : M page unit :=
  do* modify (set_latInput lat) in
  do* modify (set_lngInput lng) in
  modify (set_currentLocation (parseFloat lat, parseFloat lng)).

(** [addLocationMarker(lat, lng)] *)
Definition addLocationMarker (lat lng : string) : M page unit :=
  do* clearLayers in
  let* marker :=
    addTo (Marker [ToNumber lat; ToNumber lng]
             {| icon_className := "custom-location-marker";
                icon_html := Elem "div" "marker-pulse" [];
                iconSize := (20, 20)%Z |} None) in
  bindPopup marker
    (Elem "div" "marker-popup"
       [Elem "h6" "" [Text "Ground Station"];
        Elem "p" "" [Text ("Coordinates: " ++ lat ++ ", " ++ lng)];
        Elem "p" "" [Text "Status: Active"]]).

(** [updateLocation()] *)
Definition updateLocation : M page unit :=
  let* lat := gets latInput in
  let* lng := gets lngInput in
  if truthy_string lat && truthy_string lng && isValidCoordinate lat lng then
    do* modify (set_currentLocation (parseFloat lat, parseFloat lng)) in
    do* setView [ToNumber lat; ToNumber lng] 8 in
    fetchWeatherData lat lng
  else ret tt.

(** [requestUserLocation()], with what the browser answers: [None] when
    [navigator.geolocation] is missing, else the argument of the callback
    that fires. *)
Definition requestUserLocation (geolocation : option located) : M app unit :=
  let* btn := gets useLocationBtn in
  let originalText := textContent btn in
  do* modify (fun a =>
        set_useLocationBtn
          (with_disabled true (with_textContent "Acquiring GPS..." (useLocationBtn a))) a) in
  match geolocation with
  | None =>
      do* on_page (showAlert "Geolocation is not supported by this browser" "error") in
      modify (fun a => set_useLocationBtn (resetButton (useLocationBtn a) originalText) a)
  | Some (Position latitude longitude) =>
      let lat := Number_toFixed latitude 6 in
      let lng := Number_toFixed longitude 6 in
      do* on_page (updateInputs lat lng) in
      do* on_page (updateLocationStatus ("GPS Lock Acquired: " ++ lat ++ ", " ++ lng)) in
      do* on_page (setView [ToNumber lat; ToNumber lng] 10) in
      do* on_page (fetchWeatherData lat lng) in
      do* on_page (addLocationMarker lat lng) in
      modify (fun a => set_useLocationBtn (resetButton (useLocationBtn a) originalText) a)
  | Some (PositionError error) =>
      let message :=
        match error with
        | PERMISSION_DENIED => "Location access denied by user"
        | POSITION_UNAVAILABLE => "Location information unavailable"
        | TIMEOUT => "Location request timed out"
        | other_error => "Location access denied"
        end in
      do* on_page (showAlert message "error") in
      modify (fun a => set_useLocationBtn (resetButton (useLocationBtn a) originalText) a)
  end.

(** The URL [fetchEarthImage] fetches. *)
Definition image_request (lat lng : string) : string :=
  "/api/nasa/earth-image?lat=" ++ lat ++ "&lng=" ++ lng.

(** [await fetch(url)] on the imagery route. *)
Definition fetch_image (url : string) : M app image_reply :=
  match service_image url with
  | ImageAnswered r => ret r
  | ImageFailed e => throw e
  end.

(** [await response.blob()] *)
Definition response_blob (r : image_reply) : M app (list byte) :=
  match blob r with
  | Some b => ret b
  | None => throw (JsError "Failed to fetch")
  end.

(** [fetchEarthImage()] *)
Definition fetchEarthImage : M app unit :=
  let* lat := on_page (gets latInput) in
  let* lng := on_page (gets lngInput) in
  if negb (truthy_string lat) || negb (truthy_string lng) then
    on_page (showAlert "Please set coordinates first" "warning")
  else
    let* btn := gets getImageBtn in
    let originalText := textContent btn in
    do* modify (fun a =>
          set_getImageBtn
            (with_disabled true
               (with_textContent "Acquiring Satellite Imagery..." (getImageBtn a))) a) in
    do* modify (fun a =>
          set_imgInfo
            (with_classList ["image-info"; "loading"]
               (with_textContent "Requesting image from NASA Earth Imagery API..."
                  (imgInfo a))) a) in
    try_finally
      (try_catch
         (let* response := fetch_image (image_request lat lng) in
          if negb (image_ok response) then
            throw (JsError ("NASA API Error: " ++ status_text (image_status response)))
          else
            let* blob := response_blob response in
            let* old := gets earthImg_src in
            do* (if truthy_resource old then revokeObjectURL old else ret tt) in
            let* url := createObjectURL blob in
            do* modify (set_earthImg_src url) in
            do* modify (fun a =>
                  set_earthImg
                    (classList_add "visible"
                       (classList_add "fade-in" (classList_remove "d-none" (earthImg a)))) a) in
            modify (fun a =>
              set_imgInfo
                (with_classList ["image-info"; "success"]
                   (with_textContent
                      ("Latest satellite image captured for coordinates: " ++ lat ++ ", " ++ lng)
                      (imgInfo a))) a))
         (fun error =>
            do* on_page (console_error "Earth imagery error:" error) in
            modify (fun a =>
              set_imgInfo
                (with_classList ["image-info"; "error"]
                   (with_textContent
                      "Unable to retrieve satellite imagery. Try different coordinates."
                      (imgInfo a))) a)))
      (modify (fun a =>
         set_getImageBtn (with_disabled false (with_textContent originalText (getImageBtn a))) a)).

End Methods.

(** ** Vocabulary *)

(** Why [updateLocation] ignores what the two boxes hold. *)
Inductive not_a_place {conv : Conversions} (lat lng : string) : Prop :=
| no_latitude : truthy_string lat = false -> not_a_place lat lng
| no_longitude : truthy_string lng = false -> not_a_place lat lng
| latitude_not_a_number : is_nan (ToNumber lat) = true -> not_a_place lat lng
| longitude_not_a_number : is_nan (ToNumber lng) = true -> not_a_place lat lng
| latitude_below : (-90 <=? ToNumber lat)%float = false -> not_a_place lat lng
| latitude_above : (ToNumber lat <=? 90)%float = false -> not_a_place lat lng
| longitude_below : (-180 <=? ToNumber lng)%float = false -> not_a_place lat lng
| longitude_above : (ToNumber lng <=? 180)%float = false -> not_a_place lat lng.

(** Every live object URL is the one the image element shows. *)
Definition one_picture (a : app) : Prop :=
  forall id, is_Some (object_urls a !! id) -> earthImg_src a = ObjectURL id.

(** An imagery request that brought no picture. *)
Definition no_picture (o : image_fetched) : Prop :=
  match o with
  | ImageFailed _ => True
  | ImageAnswered r => image_ok r = false \/ blob r = None
  end.

(** The message shown for a refusal of the position. *)
Definition refusal_message (error : position_error) : string :=
  match error with
  | PERMISSION_DENIED => "Location access denied by user"
  | POSITION_UNAVAILABLE => "Location information unavailable"
  | TIMEOUT => "Location request timed out"
  | other_error => "Location access denied"
  end.

(** ** Samples *)

(** A reading of decimal text good enough for the samples below. *)
Definition sample_conversions : Conversions :=
  {| ToNumber := fun s =>
       if String.eqb s "999" then 999%float
       else if String.eqb s "7.0" then 7%float
       else if String.eqb s "26.162600" then 26.1626%float
       else if String.eqb s "32.709400" then 32.7094%float
       else nan;
     parseFloat := fun s =>
       if String.eqb s "999" then 999%float
       else if String.eqb s "7.0" then 7%float
       else if String.eqb s "26.162600" then 26.1626%float
       else if String.eqb s "32.709400" then 32.7094%float
       else nan |}.

Definition no_pictures : ImageService :=
  {| service_image := fun _ => ImageFailed (JsError "Failed to fetch") |}.

Definition a_picture : list byte := [x89; x50; x4e; x47].

Definition one_picture_service : ImageService :=
  {| service_image := fun _ => ImageAnswered {| image_status := 200; blob := Some a_picture |} |}.

Definition start_app : app :=
  {| page_of := start_page;
     useLocationBtn := blank "Activate GPS Location";
     getImageBtn := blank "Capture Satellite Image";
     imgInfo := blank "";
     earthImg := {| content := []; textContent := ""; classList := ["d-none"]; disabled := false |};
     earthImg_src := Address "";
     object_urls := ∅;
     next_object_url := 0 |}.

Definition far_north : page := set_latInput "999" start_page.

(** Unfolds the monad and the helpers of a method of the larger state. *)
Ltac run_app :=
  cbv [exec bind ret throw gets modify try_catch try_finally on_page fetch_image
       response_blob revokeObjectURL createObjectURL
       fetch response_json console_error showAlert updateLocationStatus clearLayers
       addTo bindPopup setView fitBounds updateInputs addLocationMarker].

End Controls.

(** * Further vocabulary for the map client *)

Module Terms.
Import Client.

(** What a click on an entry of the satellite list will track. *)
Definition item_target (h : html) : option (float * string) :=
  match h with
  | SatelliteItem _ _ id name => Some (id, name)
  | _ => None
  end.

(** The texts of the nodes of a given class under an element. *)
Definition texts_of (c : string) (h : html) : list string :=
  List.flat_map
    (fun n => match n with
              | Elem _ _ [Text t] => [t]
              | _ => []
              end)
    (by_class c h).

(** A request that brought no usable answer: the network failed, the
    status is not a success, or the body could not be read. *)
Definition no_answer {T} (o : fetched T) : Prop :=
  match o with
  | Failed _ => True
  | Answered r => ok r = false \/ json r = None
  end.


(** The value shown by a row of the country popup. *)
Definition country_value (label : string) (h : html) : list string :=
  List.flat_map
    (fun n => match n with
              | Elem _ c [Elem _ _ [Text l]; Elem _ _ [Text v]] =>
                  if String.eqb c "country-row" && String.eqb l label then [v] else []
              | _ => []
              end)
    (nodes h).

(** The texts under an element, in document order. *)
Definition all_text (h : html) : list string :=
  List.flat_map (fun n => match n with Text t => [t] | _ => [] end) (nodes h).

(** Unfolds the monad and the helpers of a page method, leaving the
    rendering of the satellite list folded. *)
Ltac run_method :=
  cbv [exec bind ret throw gets modify try_catch try_finally fetch response_json
       console_error showAlert updateLocationStatus clearLayers addTo bindPopup
       setView fitBounds].

Definition three_overhead : list satellite :=
  [ {| satid := 25544%float; satname := "SPACE STATION"; satalt := Some 417.8%float |};
    {| satid := 20580%float; satname := "HST"; satalt := Some 0%float |};
    {| satid := 33591%float; satname := "NOAA 19"; satalt := None |} ].

Definition crowded_sky : Services :=
  sample_services
    (answering {| status := 200; json := Some {| above := Some three_overhead |} |})
    unreachable unreachable unreachable.

Definition offline : Services :=
  sample_services unreachable unreachable unreachable unreachable.

Definition egypt_record : country :=
  {| name_common := "Egypt"; flag := None;
     capitalInfo_latlng := Some [30.05%float; 31.25%float];
     latlng := Some [27%float; 30%float];
     capital := Some ["Cairo"]; population := Some 102334403%float;
     area := Some 1002450%float |}.

Definition egypt_found : Services :=
  sample_services unreachable unreachable unreachable
    (answering {| status := 200; json := Some [egypt_record; no_flagpole] |}).

Definition empty_forecast : weather_data :=
  {| name := Some ""; weather := []; main_temp := 20%float; main_humidity := 40%float;
     wind_speed := 1%float; visibility := Some 0%float |}.

Definition hazy : weather_data :=
  {| name := None; weather := [{| description := "haze" |}]; main_temp := 20%float;
     main_humidity := 40%float; wind_speed := 1%float; visibility := Some 0%float |}.

End Terms.

(** * Samples for the further properties *)

Module GatewaySamples.
Import Gateway.

Definition always_null : list byte -> option json := fun _ => Some JNull.

Definition empty_latitude : gmap string qvalue :=
  {[ "lat" := QStr ""; "lng" := QStr "32.7094" ]}.

End GatewaySamples.

Module Samples.
Import Client Controls Terms.

Definition set_countryInput (v : string) (p : page) : page :=
  {| currentLocation := currentLocation p;
     latInput := latInput p;
     lngInput := lngInput p;
     satIdInput := satIdInput p;
     countryInput := v;
     satMarkersLayer := satMarkersLayer p;
     mapView := mapView p;
     satList := satList p;
     weatherBox := weatherBox p;
     locationStatus := locationStatus p;
     findAboveBtn := findAboveBtn p;
     countryBtn := countryBtn p;
     alerts := alerts p;
     console := console p |}.

Definition no_latitude_page : page := set_latInput "" start_page.

Definition nameless_page : page := set_countryInput "" start_page.

Definition hazy_weather : Services :=
  sample_services unreachable unreachable
    (answering {| status := 200; json := Some empty_forecast |}) unreachable.

End Samples.

(** * Text lemmas *)

Lemma append_String (c : ascii) (s t : string) : String c s ++ t = String c (s ++ t).
Proof. reflexivity. Qed.

Lemma append_empty_r (s : string) : s ++ EmptyString = s.
Proof. induction s as [|c s IH]; [reflexivity | now rewrite append_String, IH]. Qed.

Lemma append_assoc (a b c : string) : (a ++ b) ++ c = a ++ (b ++ c).
Proof.
  induction a as [|x a IH]; [reflexivity | now rewrite !append_String, IH].
Qed.

Lemma prefix_append (s t : string) : String.prefix s (s ++ t) = true.
Proof.
  induction s as [|c s IH].
  - now destruct t.
  - rewrite append_String; simpl.
    destruct (ascii_dec c c) as [_|ne]; [exact IH | now destruct ne].
Qed.

Lemma prefix_split (s t : string) :
  String.prefix s t = true -> exists post, t = s ++ post.
Proof.
  revert t; induction s as [|c s IH]; intros t H.
  - now exists t.
  - destruct t as [|d t]; simpl in H; [discriminate|].
    destruct (ascii_dec c d) as [->|]; [|discriminate].
    destruct (IH t H) as [post ->]. now exists post.
Qed.

Lemma occurs_inb_true (s t : string) : occurs_inb s t = true <-> occurs_in s t.
Proof.
  split.
  - induction t as [|c t IH]; intros H; cbn [occurs_inb] in H.
    + apply orb_true_iff in H as [H|H]; [|discriminate].
      destruct (prefix_split _ _ H) as [post ->]. now exists EmptyString, post.
    + apply orb_true_iff in H as [H|H].
      * destruct (prefix_split _ _ H) as [post E]. exists EmptyString, post. exact E.
      * destruct (IH H) as (pre & post & ->). now exists (String c pre), post.
  - intros (pre & post & ->). induction pre as [|c pre IH].
    + change (EmptyString ++ s ++ post) with (s ++ post).
      destruct (s ++ post) eqn:E; cbn [occurs_inb]; rewrite <- E, prefix_append; reflexivity.
    + rewrite append_String; cbn [occurs_inb]. rewrite IH. apply orb_true_r.
Qed.

Lemma occurs_inb_false (s t : string) : occurs_inb s t = false -> ~ occurs_in s t.
Proof.
  intros H Hin. apply occurs_inb_true in Hin. congruence.
Qed.

Lemma occurs_in_append_r (s a b : string) : occurs_in s b -> occurs_in s (a ++ b).
Proof.
  intros (pre & post & ->). exists (a ++ pre), post. now rewrite append_assoc.
Qed.

Lemma occurs_in_suffix (s a : string) : occurs_in s (a ++ s).
Proof.
  apply occurs_in_append_r. exists EmptyString, EmptyString.
  now rewrite append_empty_r.
Qed.

(** * Properties of the gateway *)

Module GatewayFacts.
Import Gateway.

Section Routes.
Variable network : string -> fetch_outcome.
Variable JSON_parse : list byte -> option json.

Lemma serve_without_required (ep : endpoint) (query : gmap string qvalue) :
  has_required ep query = false ->
  serve network JSON_parse ep query =
  {| calls := []; console := []; statusCode := 400;
     sent := JsonBody (error_object (validation_message ep)) |}.
Proof.
  intros H. split_route ep query; simpl in H; try discriminate H; reflexivity.
Qed.

Lemma serve_upstream_failed (ep : endpoint) (query : gmap string qvalue) :
  has_required ep query = true ->
  upstream_failed (network (upstream_url ep query)) ->
  serve network JSON_parse ep query =
  {| calls := [upstream_url ep query];
     console := [(failure_label ep, upstream_error ep (network (upstream_url ep query)))];
     statusCode := 500;
     sent := JsonBody (error_object (failure_message ep)) |}.
Proof.
  intros H F. split_route ep query; simpl in H; try discriminate H; simpl;
    match goal with
    | |- context [network ?u] => revert F; destruct (network u) as [r|e]; intros F
    end; simpl in F |- *; try rewrite F; reflexivity.
Qed.

Lemma serve_calls_once (ep : endpoint) (query : gmap string qvalue) :
  has_required ep query = true ->
  calls (serve network JSON_parse ep query) = [upstream_url ep query].
Proof.
  intros H. split_route ep query; simpl in H; try discriminate H; simpl;
    match goal with
    | |- context [network ?u] => destruct (network u) as [r|e]
    end; simpl; try reflexivity;
    destruct (ok r); simpl; try reflexivity;
    destruct (JSON_parse _); reflexivity.
Qed.

Variable Number_toString : float -> string.

Lemma serve_status (ep : endpoint) (query : gmap string qvalue) :
  has_required ep query = true ->
  statusCode (serve network JSON_parse ep query) = 200%Z \/
  statusCode (serve network JSON_parse ep query) = 500%Z.
Proof.
  intros H. split_route ep query; simpl in H; try discriminate H; simpl;
    match goal with
    | |- context [network ?u] => destruct (network u) as [r|e]
    end; simpl; auto;
    destruct (ok r); simpl; auto;
    destruct (JSON_parse _); simpl; auto.
Qed.

(** Whatever the request, the answer is a success or one of the route's two
    error objects. *)
Lemma serve_answers (ep : endpoint) (query : gmap string qvalue) :
  statusCode (serve network JSON_parse ep query) = 200%Z \/
  sent (serve network JSON_parse ep query) = JsonBody (error_object (validation_message ep)) \/
  sent (serve network JSON_parse ep query) = JsonBody (error_object (failure_message ep)).
Proof.
  split_route ep query; simpl; auto;
    match goal with
    | |- context [network ?u] => destruct (network u) as [r|e]
    end; simpl; auto;
    destruct (ok r); simpl; auto;
    destruct (JSON_parse _); simpl; auto.
Qed.

Lemma missing_is_not_required (ep : endpoint) (query : gmap string qvalue) (p : string) :
  In p (required ep) -> truthy (query !! p) = false -> has_required ep query = false.
Proof.
  intros Hin Hp. unfold has_required.
  destruct (forallb _ _) eqn:E; [|reflexivity].
  rewrite forallb_forall in E. specialize (E p Hin). congruence.
Qed.

Lemma error_object_text (msg : string) :
  JSON_stringify Number_toString (error_object msg) = error_text msg.
Proof. reflexivity. Qed.

(** No provider key is part of the text of an error answer. *)
Lemma keys_not_in_error_text (ep : endpoint) (key : string) :
  In key API_KEYS.all ->
  occurs_inb key (error_text (validation_message ep)) = false /\
  occurs_inb key (error_text (failure_message ep)) = false.
Proof.
  intros [<-|[<-|[<-|[]]]]; destruct ep; split; vm_compute; reflexivity.
Qed.

Lemma credential_in_url (ep : endpoint) (query : gmap string qvalue) :
  occurs_in (credential ep) (upstream_url ep query).
Proof.
  destruct ep; cbv [upstream_url credential above_url passes_url earth_image_url weather_url];
    rewrite <- ?append_assoc; apply occurs_in_suffix.
Qed.

(** A status of the 4xx or 5xx class is not a success. *)
Lemma error_status_failed (r : Response) :
  (400 <= status r <= 599)%Z -> upstream_failed (Resolved r).
Proof.
  intros H. unfold upstream_failed, ok.
  apply andb_false_iff. right. apply Z.leb_gt. lia.
Qed.

(** *** Missing parameters *)

(** C1. On each of the four routes, a request in which a required query
    parameter is missing (the latitude or the longitude, and on the passes
    route also the satellite id) is answered 400 with the JSON object
    [{ error: message }], and no upstream call is made. *)
Theorem missing_parameter_is_rejected
  (ep : endpoint) (query : gmap string qvalue) (p : string) :
  In p (required ep) ->
  query !! p = None ->
  statusCode (serve network JSON_parse ep query) = 400%Z /\
  sent (serve network JSON_parse ep query)
    = JsonBody (JObj [("error", JStr (validation_message ep))]) /\
  calls (serve network JSON_parse ep query) = [].
Proof.
  intros Hin Hnone.
  rewrite (serve_without_required ep query).
  - repeat split.
  - apply (missing_is_not_required ep query p Hin). now rewrite Hnone.
Qed.

(** *** Upstream failures *)

(** C2. On each route, when the upstream answer has a non-success status
    (so any 4xx or 5xx) or the request fails on the network, the caller gets
    500 with the JSON object [{ error: message }], whose message is fixed per
    route; the upstream detail goes to the server's console only, and the
    text sent is that whole object. *)
Theorem upstream_failure_is_500 (ep : endpoint) (query : gmap string qvalue) :
  has_required ep query = true ->
  upstream_failed (network (upstream_url ep query)) ->
  statusCode (serve network JSON_parse ep query) = 500%Z /\
  sent (serve network JSON_parse ep query)
    = JsonBody (JObj [("error", JStr (failure_message ep))]) /\
  body_text Number_toString (serve network JSON_parse ep query)
    = error_text (failure_message ep) /\
  console (serve network JSON_parse ep query)
    = [(failure_label ep, upstream_error ep (network (upstream_url ep query)))].
Proof.
  intros H F. rewrite (serve_upstream_failed ep query H F). repeat split.
Qed.

(** *** One call, with the key *)

(** C3 (amended). On each route, a request with every required parameter
    present and non-empty makes exactly one upstream call, to a URL that
    holds the route's provider key; and whatever the request, no provider
    key is part of a non-200 answer's body. *)
Theorem one_call_with_credential (ep : endpoint) (query : gmap string qvalue) :
  (has_required ep query = true ->
   calls (serve network JSON_parse ep query) = [upstream_url ep query] /\
   occurs_in (credential ep) (upstream_url ep query)) /\
  (statusCode (serve network JSON_parse ep query) <> 200%Z ->
   forall key, In key API_KEYS.all ->
     ~ occurs_in key (body_text Number_toString (serve network JSON_parse ep query))).
Proof.
  split.
  - intros H. split; [now apply serve_calls_once | apply credential_in_url].
  - intros Hs key Hkey. apply occurs_inb_false.
    destruct (keys_not_in_error_text ep key Hkey) as [K400 K500].
    destruct (serve_answers ep query) as [E|[E|E]]; [contradiction| |];
      unfold body_text; rewrite E, error_object_text; assumption.
Qed.

(** *** The image is relayed as it is *)

(** C4. When the upstream answer to the earth-image route is a success, its
    body is piped to the caller chunk by chunk: the bytes sent are the bytes
    received, with status 200 and no JSON around them. *)
Theorem earth_image_is_relayed (query : gmap string qvalue) (r : Response) :
  has_required EarthImage query = true ->
  network (upstream_url EarthImage query) = Resolved r ->
  ok r = true ->
  sent (serve network JSON_parse EarthImage query) = Piped (body r) /\
  body_bytes Number_toString (serve network JSON_parse EarthImage query)
    = List.concat (body r) /\
  statusCode (serve network JSON_parse EarthImage query) = 200%Z.
Proof.
  intros H N K. run_route.
  destruct (truthy (query !! "lat")), (truthy (query !! "lng"));
    simpl in H; try discriminate H; simpl.
  rewrite N; simpl. rewrite K; simpl. repeat split.
Qed.

(** *** Validation looks at presence only *)

(** C10. Whatever non-empty strings are given as coordinates (and as the
    satellite id), numeric or not, in range or not, no route answers 400,
    and the one URL it fetches holds both strings as they came. *)
Theorem validation_is_presence_only (ep : endpoint) (lat lng satId : string) :
  lat <> EmptyString -> lng <> EmptyString -> satId <> EmptyString ->
  statusCode (serve network JSON_parse ep
                {[ "satId" := QStr satId; "lat" := QStr lat; "lng" := QStr lng ]})
    <> 400%Z /\
  exists before between after,
    calls (serve network JSON_parse ep
             {[ "satId" := QStr satId; "lat" := QStr lat; "lng" := QStr lng ]})
    = [before ++ lat ++ between ++ lng ++ after].
Proof.
  intros Hlat Hlng Hid.
  set (query := {[ "satId" := QStr satId; "lat" := QStr lat; "lng" := QStr lng ]}
                : gmap string qvalue).
  assert (Lid : query !! "satId" = Some (QStr satId)) by reflexivity.
  assert (Llat : query !! "lat" = Some (QStr lat)) by reflexivity.
  assert (Llng : query !! "lng" = Some (QStr lng)) by reflexivity.
  assert (R : has_required ep query = true).
  { destruct ep; unfold has_required, required, forallb;
      rewrite ?Lid, ?Llat, ?Llng; simpl;
      destruct lat, lng, satId; simpl; congruence. }
  split.
  - destruct (serve_status ep query R) as [E|E]; rewrite E; discriminate.
  - rewrite (serve_calls_once ep query R).
    destruct ep; cbv [upstream_url above_url passes_url earth_image_url weather_url];
      rewrite Llat, Llng, ?Lid; cbn [tpl toString]; eauto.
    exists ("https://api.n2yo.com/rest/v1/satellite/radiopasses/" ++ satId ++ "/"),
           "/", ("/0/7/10/?apiKey=" ++ API_KEYS.N2YO).
    now rewrite !append_assoc.
Qed.

End Routes.

(** **** Instances *)

Lemma missing_parameter_witness :
  In "lat" (required Weather) /\
  only_longitude !! "lat" = None /\
  statusCode (serve network_down no_JSON Weather only_longitude) = 400%Z /\
  sent (serve network_down no_JSON Weather only_longitude)
    = JsonBody (JObj [("error", JStr "Latitude and longitude are required.")]) /\
  calls (serve network_down no_JSON Weather only_longitude) = [].
Proof.
  assert (Hin : In "lat" (required Weather)) by (simpl; auto).
  assert (Hnone : only_longitude !! "lat" = None) by reflexivity.
  exact (conj Hin (conj Hnone
    (missing_parameter_is_rejected network_down no_JSON Weather only_longitude "lat" Hin Hnone))).
Defined.

Lemma upstream_failure_witness :
  has_required Above egypt = true /\
  upstream_failed (network_answering unavailable (upstream_url Above egypt)) /\
  statusCode (serve (network_answering unavailable) no_JSON Above egypt) = 500%Z /\
  sent (serve (network_answering unavailable) no_JSON Above egypt)
    = JsonBody (JObj [("error", JStr "Failed to fetch satellite data.")]) /\
  body_text digits_only (serve (network_answering unavailable) no_JSON Above egypt)
    = error_text "Failed to fetch satellite data." /\
  console (serve (network_answering unavailable) no_JSON Above egypt)
    = [("N2YO Above error:", JsError "N2YO API Error: Service Unavailable")].
Proof.
  assert (R : has_required Above egypt = true) by reflexivity.
  assert (F : upstream_failed (network_answering unavailable (upstream_url Above egypt)))
    by reflexivity.
  exact (conj R (conj F
    (upstream_failure_is_500 (network_answering unavailable) no_JSON digits_only
       Above egypt R F))).
Defined.

Lemma one_call_witness :
  has_required Weather egypt = true /\
  calls (serve network_down no_JSON Weather egypt) = [upstream_url Weather egypt] /\
  occurs_in API_KEYS.OPENWEATHER (upstream_url Weather egypt).
Proof.
  assert (R : has_required Weather egypt = true) by reflexivity.
  exact (conj R
    (proj1 (one_call_with_credential network_down no_JSON digits_only Weather egypt) R)).
Defined.

(** A request with both coordinates and no satellite id: the passes route
    answers 400 and calls nothing. *)
Lemma passes_without_id_calls_nothing :
  truthy (egypt !! "lat") = true /\
  truthy (egypt !! "lng") = true /\
  statusCode (serve network_down no_JSON Passes egypt) = 400%Z /\
  calls (serve network_down no_JSON Passes egypt) = [].
Proof. repeat split. Qed.

Lemma earth_image_witness :
  has_required EarthImage egypt = true /\
  network_answering picture (upstream_url EarthImage egypt) = Resolved picture /\
  ok picture = true /\
  sent (serve (network_answering picture) no_JSON EarthImage egypt) = Piped (body picture) /\
  body_bytes digits_only (serve (network_answering picture) no_JSON EarthImage egypt)
    = [x89; x50; x4e; x47; x0d; x0a; x1a; x0a; x00] /\
  statusCode (serve (network_answering picture) no_JSON EarthImage egypt) = 200%Z.
Proof.
  assert (R : has_required EarthImage egypt = true) by reflexivity.
  assert (N : network_answering picture (upstream_url EarthImage egypt) = Resolved picture)
    by reflexivity.
  assert (K : ok picture = true) by reflexivity.
  exact (conj R (conj N (conj K
    (earth_image_is_relayed (network_answering picture) no_JSON digits_only egypt picture
       R N K)))).
Defined.

Lemma presence_only_witness :
  "999" <> EmptyString /\ "east" <> EmptyString /\ "25544" <> EmptyString /\
  statusCode (serve network_down no_JSON Above off_the_globe) <> 400%Z /\
  exists before between after,
    calls (serve network_down no_JSON Above off_the_globe)
    = [before ++ "999" ++ between ++ "east" ++ after].
Proof.
  assert (Hlat : "999" <> EmptyString) by discriminate.
  assert (Hlng : "east" <> EmptyString) by discriminate.
  assert (Hid : "25544" <> EmptyString) by discriminate.
  exact (conj Hlat (conj Hlng (conj Hid
    (validation_is_presence_only network_down no_JSON Above "999" "east" "25544"
       Hlat Hlng Hid)))).
Defined.

End GatewayFacts.

(** * Properties of the map client *)

Module ClientFacts.
Import Client.

Section Page.
Context {js : Engine} {net : Services}.

(** ** The visibility label of a pass *)

Lemma pass_status_of_popup (name : string) (pass : pass) (passTime : float) :
  by_class "pass-status" (createPassPopup name pass passTime)
  = [status_node
       (if (30 <? maxEl pass)%float then "excellent"
        else if (15 <? maxEl pass)%float then "good" else "fair")
       (if (30 <? maxEl pass)%float then "Excellent visibility"
        else if (15 <? maxEl pass)%float then "Good visibility"
        else "Fair visibility")].
Proof.
  unfold createPassPopup, by_class, status_node.
  destruct (30 <? maxEl pass)%float; [|destruct (15 <? maxEl pass)%float]; reflexivity.
Qed.

(** C5. The popup of a predicted pass carries exactly one status line: it
    reads excellent when the pass's maximum elevation is above 30, good when
    it is above 15 and not above 30, fair otherwise; so 31, 20 and 10 give
    excellent, good and fair. *)
Theorem visibility_label (name : string) (pass : pass) (passTime : float) :
  ((30 <? maxEl pass)%float = true ->
   by_class "pass-status" (createPassPopup name pass passTime)
   = [status_node "excellent" "Excellent visibility"]) /\
  ((30 <? maxEl pass)%float = false -> (15 <? maxEl pass)%float = true ->
   by_class "pass-status" (createPassPopup name pass passTime)
   = [status_node "good" "Good visibility"]) /\
  ((30 <? maxEl pass)%float = false -> (15 <? maxEl pass)%float = false ->
   by_class "pass-status" (createPassPopup name pass passTime)
   = [status_node "fair" "Fair visibility"]) /\
  (maxEl pass = 31%float ->
   by_class "pass-status" (createPassPopup name pass passTime)
   = [status_node "excellent" "Excellent visibility"]) /\
  (maxEl pass = 20%float ->
   by_class "pass-status" (createPassPopup name pass passTime)
   = [status_node "good" "Good visibility"]) /\
  (maxEl pass = 10%float ->
   by_class "pass-status" (createPassPopup name pass passTime)
   = [status_node "fair" "Fair visibility"]).
Proof.
  rewrite pass_status_of_popup.
  repeat split; intros; repeat match goal with H : _ = _ |- _ => rewrite H end;
    reflexivity.
Qed.

(** ** Frame lemmas for the element updates *)

Lemma content_classList_add (c : string) (e : element) :
  content (classList_add c e) = content e.
Proof. unfold classList_add. now destruct (existsb _ _). Qed.

Lemma textContent_classList_add (c : string) (e : element) :
  textContent (classList_add c e) = textContent e.
Proof. unfold classList_add. now destruct (existsb _ _). Qed.

(** ** The weather panel *)



(** ** Scanning overhead *)


(** ** Country search *)


(** The marker layer changes only once a first match with coordinates is
    at hand. *)
Lemma markers_change_only_when_placed (p : page) :
  satMarkersLayer (exec searchCountry p) = satMarkersLayer p \/
  exists r first others coordinates,
    service_countries (country_request (String_trim (countryInput p))) = Answered r /\
    ok r = true /\
    json r = Some (first :: others) /\
    or_else (capitalInfo_latlng first) (latlng first) = Some coordinates.
Proof.
  unfold searchCountry. run_page.
  destruct (truthy_string (String_trim (countryInput p))); cbn [negb]; [|now left].
  destruct (service_countries _) as [r|e] eqn:N; [|now left].
  destruct (ok r) eqn:K; cbn [negb]; [|now left].
  destruct (json r) as [[|first others]|] eqn:J; [now left| |now left].
  destruct (or_else (capitalInfo_latlng first) (latlng first)) as [coordinates|] eqn:C;
    [|now left].
  right. exists r, first, others, coordinates. auto.
Qed.

(** ** Tracking a pass *)


(** The loop of the arc stops by its own test, after 21 points: the fuel
    never runs out. *)
Lemma track_loop_ends (lat lng : float) :
  length (track_loop 64 lat lng 0%float []) = 21%nat /\
  track_loop 64 lat lng 0%float [] = track_loop 22 lat lng 0%float [].
Proof. split; reflexivity. Qed.


End Page.

(** ** Instances *)

Lemma visibility_label_witness :
  (30 <? maxEl high_pass)%float = true /\
  by_class "pass-status" (@createPassPopup sample_engine "ISS" high_pass 0%float)
    = [status_node "excellent" "Excellent visibility"] /\
  (30 <? maxEl middle_pass)%float = false /\ (15 <? maxEl middle_pass)%float = true /\
  by_class "pass-status" (@createPassPopup sample_engine "ISS" middle_pass 0%float)
    = [status_node "good" "Good visibility"] /\
  (30 <? maxEl low_pass)%float = false /\ (15 <? maxEl low_pass)%float = false /\
  by_class "pass-status" (@createPassPopup sample_engine "ISS" low_pass 0%float)
    = [status_node "fair" "Fair visibility"].
Proof.
  assert (H1 : (30 <? maxEl high_pass)%float = true) by reflexivity.
  assert (M1 : (30 <? maxEl middle_pass)%float = false) by reflexivity.
  assert (M2 : (15 <? maxEl middle_pass)%float = true) by reflexivity.
  assert (L1 : (30 <? maxEl low_pass)%float = false) by reflexivity.
  assert (L2 : (15 <? maxEl low_pass)%float = false) by reflexivity.
  exact (conj H1
    (conj (proj1 (@visibility_label sample_engine "ISS" high_pass 0%float) H1)
    (conj M1 (conj M2
    (conj (proj1 (proj2 (@visibility_label sample_engine "ISS" middle_pass 0%float)) M1 M2)
    (conj L1 (conj L2
      (proj1 (proj2 (proj2 (@visibility_label sample_engine "ISS" low_pass 0%float)))
         L1 L2)))))))).
Defined.






End ClientFacts.

(** * More on the gateway *)

Module GatewayMore.
Import Gateway GatewayFacts.

Section Routes.
Variable network : string -> fetch_outcome.
Variable JSON_parse : list byte -> option json.

(** X1. On the three JSON routes, when the upstream answer is a success and
    its body parses, the caller gets the parsed value with status 200 after
    one upstream call, and nothing is logged. *)
Theorem json_is_relayed (ep : endpoint) (query : gmap string qvalue) (r : Response)
        (data : json) :
  ep <> EarthImage ->
  has_required ep query = true ->
  network (upstream_url ep query) = Resolved r ->
  ok r = true ->
  JSON_parse (List.concat (body r)) = Some data ->
  serve network JSON_parse ep query
  = {| calls := [upstream_url ep query]; console := []; statusCode := 200;
       sent := JsonBody data |}.
Proof.
  intros NE H N K P.
  split_route ep query; simpl in H; try discriminate H; try (now destruct NE);
    simpl; rewrite N; simpl; rewrite K; simpl; rewrite P; reflexivity.
Qed.


(** X3. A required parameter that is present but empty ([?lat=]) is treated
    as missing: 400 with the route's validation message, no upstream call. *)
Theorem empty_parameter_is_rejected (ep : endpoint) (query : gmap string qvalue)
        (p : string) :
  In p (required ep) ->
  query !! p = Some (QStr EmptyString) ->
  serve network JSON_parse ep query
  = {| calls := []; console := []; statusCode := 400;
       sent := JsonBody (error_object (validation_message ep)) |}.
Proof.
  intros Hin He. apply serve_without_required.
  apply (missing_is_not_required ep query p Hin). now rewrite He.
Qed.

(** X4. Whatever the request and whatever the network does, the route
    sends an answer, its status is 200, 400 or 500, and it calls upstream at
    most once. *)
Theorem every_request_is_answered (ep : endpoint) (query : gmap string qvalue) :
  sent (serve network JSON_parse ep query) <> NoBody /\
  (statusCode (serve network JSON_parse ep query) = 200%Z \/
   statusCode (serve network JSON_parse ep query) = 400%Z \/
   statusCode (serve network JSON_parse ep query) = 500%Z) /\
  (length (calls (serve network JSON_parse ep query)) <= 1)%nat.
Proof.
  split_route ep query; simpl;
    try match goal with
    | |- context [network ?u] => destruct (network u) as [r|e]; simpl;
        [destruct (ok r); simpl; try destruct (JSON_parse _); simpl|]
    end; (split; [discriminate | split; [tauto | lia]]).
Qed.

(** X5. An error is logged on the server exactly when the answer is 500:
    a 200 or a 400 leaves the console empty, a 500 logs one entry under the
    route's label. *)
Theorem logged_exactly_on_500 (ep : endpoint) (query : gmap string qvalue) :
  (statusCode (serve network JSON_parse ep query) = 500%Z /\
   exists e, console (serve network JSON_parse ep query) = [(failure_label ep, e)]) \/
  (statusCode (serve network JSON_parse ep query) <> 500%Z /\
   console (serve network JSON_parse ep query) = []).
Proof.
  split_route ep query; simpl;
    try match goal with
    | |- context [network ?u] => destruct (network u) as [r|e]; simpl;
        [destruct (ok r); simpl; try destruct (JSON_parse _); simpl|]
    end; first [ right; split; [discriminate | reflexivity]
               | left; split; [reflexivity | eauto] ].
Qed.

End Routes.
End GatewayMore.

(** * More on the map client *)

Module ClientMore.
Import Client Terms ClientFacts.

(** ** Record updates *)

Lemma set_satList_keeps (v : list html) (p : page) :
  findAboveBtn (set_satList v p) = findAboveBtn p /\
  alerts (set_satList v p) = alerts p /\
  console (set_satList v p) = console p /\
  locationStatus (set_satList v p) = locationStatus p /\
  satMarkersLayer (set_satList v p) = satMarkersLayer p.
Proof. repeat split. Qed.

Lemma set_satList_twice (v w : list html) (p : page) :
  set_satList w (set_satList v p) = set_satList w p.
Proof. reflexivity. Qed.

Section Page.
Context {js : Engine} {net : Services}.

(** ** The satellite list *)

(** A run of [forEach] that appends one node per element. *)
Lemma forEach_appends {A} (g : A -> html) (l : list A) (index : nat) (p : page) :
  forEach l index (fun x _ => modify (fun q => set_satList (satList q ++ [g x])%list q)) p
  = (Returned tt, set_satList (satList p ++ List.map g l)%list p).
Proof.
  revert index p. induction l as [|x l IH]; intros index p.
  - cbn [forEach List.map]. rewrite app_nil_r. now destruct p.
  - cbn [forEach List.map]. cbv [bind modify]. rewrite IH.
    cbn [satList set_satList]. rewrite <- app_assoc. reflexivity.
Qed.

(** [renderSatelliteList] in closed form: it returns, and writes the
    empty-state panel or one entry per satellite. *)
Lemma render_closed_form :
  exists entry : satellite -> html,
    (forall sat, item_target (entry sat) = Some (satid sat, satname sat)) /\
    (forall sat,
       texts_of "satellite-altitude" (entry sat)
       = [match satalt sat with
          | Some alt =>
              if truthy_number alt then Number_toFixed alt 0 ++ " km altitude"
              else "Altitude unknown"
          | None => "Altitude unknown"
          end]) /\
    forall (satellites : list satellite) (p : page),
      renderSatelliteList satellites p
      = (Returned tt,
         set_satList (if Nat.eqb (length satellites) 0 then [no_satellites_panel]
                      else List.map entry satellites) p).
Proof.
  pose (entry := fun sat =>
    SatelliteItem "satellite-item"
      [Elem "div" "satellite-name" [Text (satname sat)];
       Elem "div" "satellite-id" [Text ("NORAD ID: " ++ Number_toString (satid sat))];
       Elem "div" "satellite-altitude"
         [Text (match satalt sat with
                | Some alt =>
                    if truthy_number alt then Number_toFixed alt 0 ++ " km altitude"
                    else "Altitude unknown"
                | None => "Altitude unknown"
                end)]]
      (satid sat) (satname sat)).
  exists entry. split; [reflexivity | split; [reflexivity|]].
  intros satellites p. unfold renderSatelliteList. cbv [bind modify].
  destruct (Nat.eqb (length satellites) 0); [reflexivity|].
  exact (forEach_appends entry satellites 0 (set_satList [] p)).
Qed.

(** X6. A non-empty satellite list is rendered as one entry per
    satellite, in the order received, replacing what the container held; a
    click on an entry will track that satellite's id under its name. *)
Theorem list_has_one_entry_per_satellite (satellites : list satellite) (p : page) :
  satellites <> [] ->
  List.map item_target (satList (exec (renderSatelliteList satellites) p))
  = List.map (fun sat => Some (satid sat, satname sat)) satellites.
Proof.
  intros NE. destruct render_closed_form as (entry & T & _ & R).
  unfold exec. rewrite R. destruct satellites as [|s l]; [congruence|].
  cbn [length Nat.eqb snd satList set_satList].
  rewrite List.map_map. apply List.map_ext. intros sat. apply T.
Qed.

(** X7. An entry of the satellite list shows the altitude without
    decimals, and the words Altitude unknown when the altitude is absent or
    zero. *)
Theorem altitude_or_unknown (sat : satellite) (p : page) :
  List.flat_map (texts_of "satellite-altitude")
    (satList (exec (renderSatelliteList [sat]) p))
  = [match satalt sat with
     | Some alt =>
         if truthy_number alt then Number_toFixed alt 0 ++ " km altitude"
         else "Altitude unknown"
     | None => "Altitude unknown"
     end].
Proof.
  destruct render_closed_form as (entry & _ & A & R).
  unfold exec. rewrite R. cbn [length Nat.eqb snd satList set_satList List.map List.flat_map].
  rewrite A. reflexivity.
Qed.

(** ** Scanning overhead *)

(** X8. With the latitude or the longitude box empty, a scan shows the
    warning alert and does nothing else: the list, the button, the status
    line and the markers stay as they were. *)
Theorem scan_needs_coordinates (p : page) :
  truthy_string (latInput p) = false \/ truthy_string (lngInput p) = false ->
  findSatellitesAbove p
  = (Returned tt,
     set_alerts
       (alerts p ++ [alert_element "Please set your location coordinates first" "warning"])%list
       p).
Proof.
  intros H. unfold findSatellitesAbove. run_method.
  destruct H as [H|H]; rewrite H; [|rewrite orb_true_r]; reflexivity.
Qed.


(** X10. A scan always returns normally and gives the button back its
    text; when it went as far as the request, the button ends enabled. *)
Theorem scan_restores_button (p : page) :
  fst (findSatellitesAbove p) = Returned tt /\
  textContent (findAboveBtn (exec findSatellitesAbove p)) = textContent (findAboveBtn p) /\
  (truthy_string (latInput p) = true -> truthy_string (lngInput p) = true ->
   disabled (findAboveBtn (exec findSatellitesAbove p)) = false).
Proof.
  destruct render_closed_form as (entry & _ & _ & R).
  unfold findSatellitesAbove. run_method.
  destruct (truthy_string (latInput p)), (truthy_string (lngInput p)); cbn [negb orb];
    try (repeat split; intros; discriminate).
  destruct (service_above _) as [r|e]; [|repeat split].
  destruct (ok r); cbn [negb]; [|repeat split].
  destruct (json r) as [data|]; [|repeat split].
  rewrite R.
  destruct (above data) as [found|]; [|repeat split].
  destruct (Nat.ltb 0 (length found)); repeat split.
Qed.

(** X11. When the answer lists satellites, the status line reads how many
    were found, and the line is marked active. *)
Theorem scan_reports_count (p : page) (r : reply above_data) (data : above_data)
        (found : list satellite) :
  truthy_string (latInput p) = true ->
  truthy_string (lngInput p) = true ->
  service_above (above_request (latInput p) (lngInput p)) = Answered r ->
  ok r = true ->
  json r = Some data ->
  above data = Some found ->
  found <> [] ->
  textContent (locationStatus (exec findSatellitesAbove p))
    = "Found " ++ length_text (length found) ++ " satellites overhead" /\
  In "status-active" (classList (locationStatus (exec findSatellitesAbove p))) /\
  length (satList (exec findSatellitesAbove p)) = length found.
Proof.
  intros Hlat Hlng N K J A NE.
  destruct render_closed_form as (entry & _ & _ & R).
  unfold findSatellitesAbove. run_method.
  rewrite Hlat, Hlng. cbn [negb orb]. rewrite N, K. cbn [negb]. rewrite J, A.
  cbn [default]. rewrite R.
  destruct found as [|s l]; [congruence|].
  cbn [length Nat.ltb Nat.leb Nat.eqb snd locationStatus set_locationStatus satList
       set_satList set_findAboveBtn].
  rewrite textContent_classList_add. cbn [textContent with_textContent].
  split; [reflexivity|]. split.
  - unfold classList_add. destruct (existsb _ _) eqn:E.
    + apply existsb_exists in E as (c & Hin & Hc).
      apply String.eqb_eq in Hc. now subst c.
    + cbn [classList with_classList]. apply in_or_app. right. now left.
  - change (length (List.map entry (s :: l)) = length (s :: l)).
    apply List.length_map.
Qed.

(** ** Tracking *)


(** X13. When the pass request brings no usable answer, tracking logs the
    error and shows the error alert; the markers, the view and the status
    line stay as they were. *)
Theorem track_failure_keeps_markers (p : page) (satId name : string) :
  no_answer
    (service_passes (passes_request satId (fst (currentLocation p)) (snd (currentLocation p)))) ->
  alerts (exec (trackSatelliteById satId name) p)
    = (alerts p ++ [alert_element "Unable to predict satellite passes" "error"])%list /\
  length (console (exec (trackSatelliteById satId name) p)) = S (length (console p)) /\
  satMarkersLayer (exec (trackSatelliteById satId name) p) = satMarkersLayer p /\
  mapView (exec (trackSatelliteById satId name) p) = mapView p /\
  locationStatus (exec (trackSatelliteById satId name) p) = locationStatus p.
Proof.
  intros F. unfold trackSatelliteById. run_method.
  destruct (service_passes _) as [r|e]; cbn in F |- *.
  - destruct F as [K|J].
    + rewrite K. cbn. rewrite length_app. cbn. repeat split; lia.
    + destruct (ok r); cbn; [rewrite J|]; cbn; rewrite length_app; cbn; repeat split; lia.
  - rewrite length_app. cbn. repeat split; lia.
Qed.

(** X14. Tracking never throws: whatever the service answers, the method
    returns normally. *)
Theorem track_returns_normally (p : page) (satId name : string) :
  fst (trackSatelliteById satId name p) = Returned tt.
Proof.
  unfold trackSatelliteById. run_method.
  destruct (service_passes _) as [r|e]; [|reflexivity].
  destruct (ok r); cbn [negb]; [|reflexivity].
  destruct (json r) as [data|]; [|reflexivity].
  destruct (passes data) as [[|first others]|]; reflexivity.
Qed.


(** ** Country search *)

(** X16. When the country box holds nothing once trimmed, a search shows
    the warning alert and does nothing else: no button change, no marker
    change. *)
Theorem search_needs_a_name (p : page) :
  truthy_string (String_trim (countryInput p)) = false ->
  searchCountry p
  = (Returned tt,
     set_alerts (alerts p ++ [alert_element "Please enter a country name" "warning"])%list p).
Proof.
  intros H. unfold searchCountry. run_method. rewrite H. reflexivity.
Qed.



(** X19. The country popup fills the gaps of a record: Not specified for a
    missing capital, Unknown for a missing or zero population or area; an
    area that is there is followed by its unit. *)
Theorem country_popup_fallbacks (c : country) :
  (capital c = None -> country_value "Capital:" (createCountryPopup c) = ["Not specified"]) /\
  (population c = None \/ population c = Some 0%float ->
   country_value "Population:" (createCountryPopup c) = ["Unknown"]) /\
  (area c = None \/ area c = Some 0%float ->
   country_value "Area:" (createCountryPopup c) = ["Unknown"]) /\
  (forall a, area c = Some a -> truthy_number a = true ->
   country_value "Area:" (createCountryPopup c) = [Number_toLocaleString a ++ " km²"]).
Proof.
  unfold createCountryPopup. repeat split.
  - intros H. rewrite H. reflexivity.
  - intros [H|H]; rewrite H; reflexivity.
  - intros [H|H]; rewrite H; reflexivity.
  - intros a H T. rewrite H, T. reflexivity.
Qed.

(** ** Weather *)

(** X20. When the weather request brings no usable answer, or an answer
    that lists no condition, the weather box shows the unavailable notice,
    and the method returns normally. *)
Theorem weather_unavailable (p : page) (lat lng : string) :
  no_answer (service_weather (weather_request lat lng)) \/
  (exists r data, service_weather (weather_request lat lng) = Answered r /\
                  ok r = true /\ json r = Some data /\ weather data = []) ->
  fst (fetchWeatherData lat lng p) = Returned tt /\
  List.flat_map all_text (content (weatherBox (exec (fetchWeatherData lat lng) p)))
    = ["Weather data unavailable"].
Proof.
  intros [F|(r & data & N & K & J & W)]; unfold fetchWeatherData; run_method.
  - destruct (service_weather _) as [r|e]; cbn in F |- *; [|split; reflexivity].
    destruct F as [K|J].
    + rewrite K. split; reflexivity.
    + destruct (ok r); cbn; [rewrite J|]; split; reflexivity.
  - rewrite N, K. cbn [negb]. rewrite J. unfold displayWeatherData. rewrite W.
    split; reflexivity.
Qed.

(** [fetchWeatherData] in closed form: it returns, and the page it leaves
    differs from the one it found in the weather box and the console only. *)
Lemma fetchWeatherData_closed (lat lng : string) (p : page) :
  exists box log,
    fetchWeatherData lat lng p = (Returned tt, set_console log (set_weatherBox box p)).
Proof.
  exists (weatherBox (exec (fetchWeatherData lat lng) p)),
         (console (exec (fetchWeatherData lat lng) p)).
  destruct p. unfold fetchWeatherData. run_method.
  destruct (service_weather _) as [r|e]; [|reflexivity].
  destruct (ok r); cbn [negb]; [|reflexivity].
  destruct (json r) as [data|]; [|reflexivity].
  unfold displayWeatherData.
  destruct (weather data); reflexivity.
Qed.

(** X21. Refreshing the weather touches the weather box and the console
    only, whatever the service does: the markers, the view, the satellite
    list, the status line, the alerts and the current location are the same
    after as before, and the method returns normally. *)
Theorem weather_refresh_frame (p : page) (lat lng : string) :
  fst (fetchWeatherData lat lng p) = Returned tt /\
  satMarkersLayer (exec (fetchWeatherData lat lng) p) = satMarkersLayer p /\
  mapView (exec (fetchWeatherData lat lng) p) = mapView p /\
  satList (exec (fetchWeatherData lat lng) p) = satList p /\
  locationStatus (exec (fetchWeatherData lat lng) p) = locationStatus p /\
  alerts (exec (fetchWeatherData lat lng) p) = alerts p /\
  currentLocation (exec (fetchWeatherData lat lng) p) = currentLocation p.
Proof.
  destruct (fetchWeatherData_closed lat lng p) as (box & log & E).
  unfold exec. rewrite E. repeat split.
Qed.

(** X22. A visibility of zero is shown as [N/A], like an absent one; and a
    missing or empty place name is shown as Current Location. *)
Theorem weather_fallbacks (data : weather_data) (p : page) (c : condition)
        (rest : list condition) :
  weather data = c :: rest ->
  (visibility data = Some 0%float ->
   shown "Visibility:" (content (weatherBox (exec (displayWeatherData data) p)))
   = ["N/A km"]) /\
  (name data = None \/ name data = Some EmptyString ->
   List.flat_map (texts_of "weather-location")
     (content (weatherBox (exec (displayWeatherData data) p)))
   = ["Current Location"]).
Proof.
  intros W. unfold displayWeatherData. rewrite W. run_method.
  cbn [snd weatherBox set_weatherBox]. rewrite !content_classList_add.
  cbn [content with_content]. split.
  - intros V. rewrite V. reflexivity.
  - intros [H|H]; rewrite H; reflexivity.
Qed.

End Page.
End ClientMore.

(** * Location and imagery *)

Module ControlsFacts.
Import Client Terms Controls ClientFacts ClientMore.

Section Page.
Context {js : Engine} {conv : Conversions} {net : Services} {pictures : ImageService}.

(** ** Manual coordinates *)

Lemma not_a_place_fails_the_test (lat lng : string) :
  not_a_place lat lng ->
  truthy_string lat && truthy_string lng && isValidCoordinate lat lng = false.
Proof.
  unfold isValidCoordinate.
  intros [H|H|H|H|H|H|H|H]; rewrite H; cbn [negb];
    rewrite ?andb_false_r; reflexivity.
Qed.

(** X23. [updateLocation] ignores the boxes when either is empty, when
    either does not read as a number, or when the latitude is outside
    -90..90 or the longitude outside -180..180: the page stays exactly as it
    was (no move of the view, no weather request, the location kept). *)
Theorem update_ignores_bad_input (p : page) :
  not_a_place (latInput p) (lngInput p) ->
  updateLocation p = (Returned tt, p).
Proof.
  intros H. unfold updateLocation. cbv [bind gets].
  now rewrite (not_a_place_fails_the_test _ _ H).
Qed.

(** X24. When both boxes hold a valid coordinate, [updateLocation] takes
    the parsed pair as the current location and centres the view on it at
    zoom 8; the markers, the alerts and the status line stay as they were. *)
Theorem update_moves_the_view (p : page) :
  truthy_string (latInput p) = true ->
  truthy_string (lngInput p) = true ->
  isValidCoordinate (latInput p) (lngInput p) = true ->
  fst (updateLocation p) = Returned tt /\
  currentLocation (exec updateLocation p)
    = (parseFloat (latInput p), parseFloat (lngInput p)) /\
  mapView (exec updateLocation p)
    = SetView [ToNumber (latInput p); ToNumber (lngInput p)] 8 /\
  satMarkersLayer (exec updateLocation p) = satMarkersLayer p /\
  alerts (exec updateLocation p) = alerts p /\
  locationStatus (exec updateLocation p) = locationStatus p.
Proof.
  intros Hlat Hlng V. unfold updateLocation. cbv [exec bind gets modify setView].
  rewrite Hlat, Hlng, V. cbn [andb].
  match goal with
  | |- context [fetchWeatherData ?a ?b ?q] =>
      destruct (fetchWeatherData_closed a b q) as (box & log & E); rewrite E
  end.
  repeat split.
Qed.

(** ** The location marker *)

(** X25. [addLocationMarker] empties the marker layer and leaves one
    marker on it, at the place given, with a popup that reads the
    coordinates as they were passed; nothing else on the page changes. *)
Theorem location_marker_stands_alone (lat lng : string) (p : page) :
  exists icon popup,
    addLocationMarker lat lng p
    = (Returned tt,
       set_satMarkersLayer [Marker [ToNumber lat; ToNumber lng] icon (Some popup)] p) /\
    all_text popup = ["Ground Station"; "Coordinates: " ++ lat ++ ", " ++ lng; "Status: Active"].
Proof.
  do 2 eexists. unfold addLocationMarker. run_method. split; reflexivity.
Qed.

(** ** Locating the device *)

(** X26. When the browser has no geolocation, or the position is refused,
    [requestUserLocation] shows one error alert, worded after the reason
    (denied by the user, unavailable, timed out, or plainly denied), changes
    nothing else on the page, and gives the button back its text, enabled. *)
Theorem locate_failure_is_reported (a : app) (geolocation : option located) :
  match geolocation with
  | Some (Position _ _) => False
  | _ => True
  end ->
  page_of (exec (requestUserLocation geolocation) a)
    = set_alerts
        (alerts (page_of a) ++
         [alert_element
            match geolocation with
            | Some (PositionError error) => refusal_message error
            | _ => "Geolocation is not supported by this browser"
            end "error"])%list
        (page_of a) /\
  textContent (useLocationBtn (exec (requestUserLocation geolocation) a))
    = textContent (useLocationBtn a) /\
  disabled (useLocationBtn (exec (requestUserLocation geolocation) a)) = false /\
  fst (requestUserLocation geolocation a) = Returned tt.
Proof.
  intros H. unfold requestUserLocation. run_app.
  destruct geolocation as [[latitude longitude|error]|]; [destruct H| |].
  - destruct error; repeat split.
  - repeat split.
Qed.

(** X27. When the position comes, [requestUserLocation] writes both
    coordinates with six decimals into the boxes, takes their parsed values
    as the current location, centres the view there at zoom 10, leaves on the
    marker layer the location marker alone, reads GPS Lock Acquired with the
    coordinates on the status line, shows no alert, and gives the button
    back its text, enabled. *)
Theorem locate_success_moves_everything (a : app) (latitude longitude : float) :
  latInput (page_of (exec (requestUserLocation (Some (Position latitude longitude))) a))
    = Number_toFixed latitude 6 /\
  lngInput (page_of (exec (requestUserLocation (Some (Position latitude longitude))) a))
    = Number_toFixed longitude 6 /\
  currentLocation (page_of (exec (requestUserLocation (Some (Position latitude longitude))) a))
    = (parseFloat (Number_toFixed latitude 6), parseFloat (Number_toFixed longitude 6)) /\
  mapView (page_of (exec (requestUserLocation (Some (Position latitude longitude))) a))
    = SetView [ToNumber (Number_toFixed latitude 6); ToNumber (Number_toFixed longitude 6)] 10 /\
  (exists icon popup,
     satMarkersLayer
       (page_of (exec (requestUserLocation (Some (Position latitude longitude))) a))
     = [Marker [ToNumber (Number_toFixed latitude 6); ToNumber (Number_toFixed longitude 6)]
          icon (Some popup)]) /\
  textContent
    (locationStatus
       (page_of (exec (requestUserLocation (Some (Position latitude longitude))) a)))
    = "GPS Lock Acquired: " ++ Number_toFixed latitude 6 ++ ", " ++ Number_toFixed longitude 6 /\
  alerts (page_of (exec (requestUserLocation (Some (Position latitude longitude))) a))
    = alerts (page_of a) /\
  textContent (useLocationBtn (exec (requestUserLocation (Some (Position latitude longitude))) a))
    = textContent (useLocationBtn a) /\
  disabled (useLocationBtn (exec (requestUserLocation (Some (Position latitude longitude))) a))
    = false.
Proof.
  unfold requestUserLocation. run_app.
  match goal with
  | |- context [fetchWeatherData ?x ?y ?q] =>
      destruct (fetchWeatherData_closed x y q) as (box & log & E); rewrite E
  end.
  cbn [snd page_of set_page_of set_useLocationBtn useLocationBtn
       latInput lngInput currentLocation mapView satMarkersLayer locationStatus alerts
       set_console set_weatherBox set_satMarkersLayer set_mapView set_locationStatus
       set_currentLocation set_lngInput set_latInput length alter
       resetButton textContent disabled with_disabled with_textContent].
  rewrite textContent_classList_add.
  repeat split. do 2 eexists. reflexivity.
Qed.

(** ** Earth imagery *)

(** X28. [fetchEarthImage] never leaks an object URL: if, before the call,
    the only live object URL is the one the image element shows, the same
    holds after it, whether the request fails or a new picture replaces the
    old one. *)
Theorem one_picture_is_kept (a : app) :
  one_picture a -> one_picture (exec fetchEarthImage a).
Proof.
  destruct a as [pg ub gb info img src urls next].
  intros I. unfold fetchEarthImage. run_app. cbn [page_of set_page_of].
  destruct (truthy_string (latInput pg)), (truthy_string (lngInput pg));
    cbn [negb orb]; try exact I.
  destruct (service_image _) as [r|e]; [|exact I].
  destruct (image_ok r); cbn [negb]; [|exact I].
  destruct (blob r) as [b|]; [|exact I].
  unfold one_picture in *. cbn in I.
  destruct src as [old|url]; cbn.
  - intros id [x L].
    destruct (decide (id = next)) as [->|ne]; [reflexivity|].
    rewrite lookup_insert_ne in L by congruence.
    destruct (decide (id = old)) as [->|ne'].
    + rewrite lookup_delete_eq in L. discriminate.
    + rewrite lookup_delete_ne in L by congruence.
      assert (ObjectURL old = ObjectURL id) as [= ->] by (apply I; eauto).
      congruence.
  - destruct (truthy_string url); cbn; intros id [x L];
      (destruct (decide (id = next)) as [->|ne]; [reflexivity|]);
      rewrite lookup_insert_ne in L by congruence;
      assert (Address url = ObjectURL id) by (apply I; eauto); discriminate.
Qed.

(** X29. When the imagery request succeeds, the image element shows a new
    object URL that stands for the bytes received, it is no longer hidden,
    and the note below names the coordinates asked for. *)
Theorem picture_shows_received_bytes (a : app) (r : image_reply) (b : list byte) :
  truthy_string (latInput (page_of a)) = true ->
  truthy_string (lngInput (page_of a)) = true ->
  service_image (image_request (latInput (page_of a)) (lngInput (page_of a)))
    = ImageAnswered r ->
  image_ok r = true ->
  blob r = Some b ->
  earthImg_src (exec fetchEarthImage a) = ObjectURL (next_object_url a) /\
  object_urls (exec fetchEarthImage a) !! next_object_url a = Some b /\
  ~ In "d-none" (classList (earthImg (exec fetchEarthImage a))) /\
  textContent (imgInfo (exec fetchEarthImage a))
    = "Latest satellite image captured for coordinates: " ++ latInput (page_of a) ++ ", "
      ++ lngInput (page_of a) /\
  classList (imgInfo (exec fetchEarthImage a)) = ["image-info"; "success"].
Proof.
  destruct a as [pg ub gb info img src urls next]. cbn [page_of next_object_url].
  intros Hlat Hlng N K B. unfold fetchEarthImage. run_app. cbn [page_of set_page_of].
  rewrite Hlat, Hlng. cbn [negb orb]. rewrite N, K. cbn [negb]. rewrite B.
  assert (R : forall e, ~ In "d-none"
            (classList (classList_add "visible"
               (classList_add "fade-in" (classList_remove "d-none" e))))).
  { intros e. unfold classList_add, classList_remove.
    assert (F : ~ In "d-none"
              (List.filter (fun x => negb (String.eqb x "d-none")) (classList e))).
    { intros H. apply List.filter_In in H as [_ H]. now rewrite String.eqb_refl in H. }
    repeat (match goal with
            | |- context [if ?c then _ else _] => destruct c
            end; cbn [classList with_classList]);
      rewrite ?List.in_app_iff; cbn [In]; intuition discriminate. }
  destruct src as [old|url]; cbn; [|destruct (truthy_string url)]; cbn;
    (split; [reflexivity|]); (split; [apply lookup_insert_eq|]);
    (split; [apply R|]); split; reflexivity.
Qed.

(** X30. When the imagery request brings no picture (the network fails,
    the status is not a success, or the body cannot be read), the picture
    on display and the object URLs stay as they were, the note reports the
    failure, the error is logged, and the button gets its text back,
    enabled. *)
Theorem picture_failure_keeps_display (a : app) :
  truthy_string (latInput (page_of a)) = true ->
  truthy_string (lngInput (page_of a)) = true ->
  no_picture (service_image (image_request (latInput (page_of a)) (lngInput (page_of a)))) ->
  fst (fetchEarthImage a) = Returned tt /\
  earthImg_src (exec fetchEarthImage a) = earthImg_src a /\
  earthImg (exec fetchEarthImage a) = earthImg a /\
  object_urls (exec fetchEarthImage a) = object_urls a /\
  textContent (imgInfo (exec fetchEarthImage a))
    = "Unable to retrieve satellite imagery. Try different coordinates." /\
  classList (imgInfo (exec fetchEarthImage a)) = ["image-info"; "error"] /\
  length (console (page_of (exec fetchEarthImage a))) = S (length (console (page_of a))) /\
  textContent (getImageBtn (exec fetchEarthImage a)) = textContent (getImageBtn a) /\
  disabled (getImageBtn (exec fetchEarthImage a)) = false.
Proof.
  destruct a as [pg ub gb info img src urls next]. cbn [page_of].
  intros Hlat Hlng F. unfold fetchEarthImage. run_app. cbn [page_of set_page_of].
  rewrite Hlat, Hlng. cbn [negb orb].
  destruct (service_image _) as [r|e]; cbn in F |- *.
  - destruct F as [K|B].
    + rewrite K. cbn. rewrite length_app. cbn. repeat split; lia.
    + destruct (image_ok r); cbn; [rewrite B|]; cbn; rewrite length_app; cbn;
        repeat split; lia.
  - rewrite length_app. cbn. repeat split; lia.
Qed.

End Page.
End ControlsFacts.

(** * Instances of the further properties *)

Module Instances.
Import Gateway GatewaySamples GatewayMore.

Lemma json_is_relayed_witness :
  Weather <> EarthImage /\
  has_required Weather egypt = true /\
  ok picture = true /\
  serve (network_answering picture) always_null Weather egypt
  = {| calls := [upstream_url Weather egypt]; console := []; statusCode := 200;
       sent := JsonBody JNull |}.
Proof.
  assert (NE : Weather <> EarthImage) by discriminate.
  assert (R : has_required Weather egypt = true) by reflexivity.
  assert (K : ok picture = true) by reflexivity.
  exact (conj NE (conj R (conj K
    (json_is_relayed (network_answering picture) always_null Weather egypt picture JNull
       NE R eq_refl K eq_refl)))).
Defined.


Lemma empty_parameter_witness :
  In "lat" (required EarthImage) /\
  empty_latitude !! "lat" = Some (QStr "") /\
  serve network_down no_JSON EarthImage empty_latitude
  = {| calls := []; console := []; statusCode := 400;
       sent := JsonBody (error_object "Latitude and longitude are required.") |}.
Proof.
  assert (Hin : In "lat" (required EarthImage)) by (simpl; auto).
  assert (He : empty_latitude !! "lat" = Some (QStr "")) by reflexivity.
  exact (conj Hin (conj He
    (empty_parameter_is_rejected network_down no_JSON EarthImage empty_latitude "lat"
       Hin He))).
Defined.

End Instances.

Module PageInstances.
Import Client Terms Controls Samples ClientMore ControlsFacts.

Lemma list_entries_witness :
  three_overhead <> [] /\
  List.map item_target
    (satList (exec (@renderSatelliteList sample_engine three_overhead) start_page))
  = [Some (25544%float, "SPACE STATION"); Some (20580%float, "HST");
     Some (33591%float, "NOAA 19")].
Proof.
  assert (NE : three_overhead <> []) by discriminate.
  exact (conj NE
    (@list_has_one_entry_per_satellite sample_engine three_overhead start_page NE)).
Defined.

Lemma scan_needs_coordinates_witness :
  truthy_string (latInput no_latitude_page) = false /\
  alerts (exec (@findSatellitesAbove sample_engine crowded_sky) no_latitude_page)
  = [alert_element "Please set your location coordinates first" "warning"] /\
  satList (exec (@findSatellitesAbove sample_engine crowded_sky) no_latitude_page) = [].
Proof.
  assert (H : truthy_string (latInput no_latitude_page) = false) by reflexivity.
  pose proof (@scan_needs_coordinates sample_engine crowded_sky no_latitude_page
                (or_introl H)) as E.
  unfold exec. rewrite E. repeat split.
Defined.


Lemma scan_restores_button_witness :
  truthy_string (latInput start_page) = true /\
  truthy_string (lngInput start_page) = true /\
  textContent (findAboveBtn (exec (@findSatellitesAbove sample_engine crowded_sky) start_page))
  = "Scan Overhead Satellites" /\
  disabled (findAboveBtn (exec (@findSatellitesAbove sample_engine crowded_sky) start_page))
  = false.
Proof.
  assert (Hlat : truthy_string (latInput start_page) = true) by reflexivity.
  assert (Hlng : truthy_string (lngInput start_page) = true) by reflexivity.
  pose proof (@scan_restores_button sample_engine crowded_sky start_page) as (_ & T & D).
  exact (conj Hlat (conj Hlng (conj T (D Hlat Hlng)))).
Defined.

Lemma scan_reports_count_witness :
  three_overhead <> [] /\
  textContent (locationStatus (exec (@findSatellitesAbove sample_engine crowded_sky) start_page))
  = "Found 3 satellites overhead" /\
  length (satList (exec (@findSatellitesAbove sample_engine crowded_sky) start_page)) = 3%nat.
Proof.
  assert (NE : three_overhead <> []) by discriminate.
  pose proof (@scan_reports_count sample_engine crowded_sky start_page
                {| status := 200; json := Some {| above := Some three_overhead |} |}
                {| above := Some three_overhead |} three_overhead
                eq_refl eq_refl eq_refl eq_refl eq_refl eq_refl NE) as (T & _ & L).
  exact (conj NE (conj T L)).
Defined.


Lemma track_failure_witness :
  no_answer (@service_passes offline
               (@passes_request sample_engine "25544" (fst (currentLocation start_page))
                  (snd (currentLocation start_page)))) /\
  alerts (exec (@trackSatelliteById sample_engine offline "25544" "ISS") start_page)
  = [alert_element "Unable to predict satellite passes" "error"] /\
  satMarkersLayer (exec (@trackSatelliteById sample_engine offline "25544" "ISS") start_page)
  = [old_marker].
Proof.
  assert (F : no_answer (@service_passes offline
                (@passes_request sample_engine "25544" (fst (currentLocation start_page))
                   (snd (currentLocation start_page))))) by exact I.
  pose proof (@track_failure_keeps_markers sample_engine offline start_page "25544" "ISS" F)
    as (A & _ & L & _).
  exact (conj F (conj A L)).
Defined.


Lemma search_needs_a_name_witness :
  truthy_string (@String_trim sample_engine (countryInput nameless_page)) = false /\
  alerts (exec (@searchCountry sample_engine egypt_found) nameless_page)
  = [alert_element "Please enter a country name" "warning"] /\
  satMarkersLayer (exec (@searchCountry sample_engine egypt_found) nameless_page)
  = [old_marker].
Proof.
  assert (H : truthy_string (@String_trim sample_engine (countryInput nameless_page)) = false)
    by reflexivity.
  pose proof (@search_needs_a_name sample_engine egypt_found nameless_page H) as E.
  unfold exec. rewrite E. repeat split.
Defined.



Lemma country_popup_witness :
  capital no_flagpole = None /\
  population no_flagpole = None /\
  area no_flagpole = None /\
  country_value "Capital:" (@createCountryPopup sample_engine no_flagpole) = ["Not specified"] /\
  country_value "Population:" (@createCountryPopup sample_engine no_flagpole) = ["Unknown"] /\
  country_value "Area:" (@createCountryPopup sample_engine no_flagpole) = ["Unknown"].
Proof.
  pose proof (@country_popup_fallbacks sample_engine no_flagpole) as (C & P & A & _).
  exact (conj eq_refl (conj eq_refl (conj eq_refl
    (conj (C eq_refl) (conj (P (or_introl eq_refl)) (A (or_introl eq_refl))))))).
Defined.

Lemma weather_unavailable_witness :
  weather empty_forecast = [] /\
  List.flat_map all_text
    (content (weatherBox
       (exec (@fetchWeatherData sample_engine hazy_weather "26.16" "32.71") start_page)))
  = ["Weather data unavailable"].
Proof.
  assert (W : weather empty_forecast = []) by reflexivity.
  assert (H : exists r data,
             @service_weather hazy_weather (weather_request "26.16" "32.71") = Answered r /\
             ok r = true /\ json r = Some data /\ weather data = []).
  { exists {| status := 200; json := Some empty_forecast |}, empty_forecast.
    repeat split. }
  exact (conj W (proj2
    (@weather_unavailable sample_engine hazy_weather start_page "26.16" "32.71"
       (or_intror H)))).
Defined.

Lemma weather_fallbacks_witness :
  weather hazy = [{| description := "haze" |}] /\
  visibility hazy = Some 0%float /\
  name hazy = None /\
  shown "Visibility:"
    (content (weatherBox (exec (@displayWeatherData sample_engine hazy) start_page)))
  = ["N/A km"] /\
  List.flat_map (texts_of "weather-location")
    (content (weatherBox (exec (@displayWeatherData sample_engine hazy) start_page)))
  = ["Current Location"].
Proof.
  assert (W : weather hazy = [{| description := "haze" |}]) by reflexivity.
  pose proof (@weather_fallbacks sample_engine hazy start_page _ _ W) as (V & N).
  exact (conj W (conj eq_refl (conj eq_refl (conj (V eq_refl) (N (or_introl eq_refl)))))).
Defined.

Lemma update_ignores_witness :
  (@ToNumber sample_conversions (latInput far_north) <=? 90)%float = false /\
  @updateLocation sample_engine sample_conversions offline far_north = (Returned tt, far_north).
Proof.
  assert (H : (@ToNumber sample_conversions (latInput far_north) <=? 90)%float = false)
    by reflexivity.
  exact (conj H
    (@update_ignores_bad_input sample_engine sample_conversions offline far_north
       (@latitude_above sample_conversions (latInput far_north) (lngInput far_north) H))).
Defined.

Lemma update_moves_witness :
  @isValidCoordinate sample_conversions (latInput start_page) (lngInput start_page) = true /\
  currentLocation (exec (@updateLocation sample_engine sample_conversions offline) start_page)
  = (26.1626%float, 32.7094%float) /\
  mapView (exec (@updateLocation sample_engine sample_conversions offline) start_page)
  = SetView [26.1626%float; 32.7094%float] 8 /\
  satMarkersLayer (exec (@updateLocation sample_engine sample_conversions offline) start_page)
  = [old_marker].
Proof.
  assert (V : @isValidCoordinate sample_conversions (latInput start_page) (lngInput start_page)
              = true) by reflexivity.
  pose proof (@update_moves_the_view sample_engine sample_conversions offline start_page
                eq_refl eq_refl V) as (_ & L & M & K & _).
  exact (conj V (conj L (conj M K))).
Defined.

Lemma locate_failure_witness :
  alerts (page_of (exec (@requestUserLocation sample_engine sample_conversions offline
                           (Some (PositionError TIMEOUT))) start_app))
  = [alert_element "Location request timed out" "error"] /\
  textContent (useLocationBtn
                 (exec (@requestUserLocation sample_engine sample_conversions offline
                          (Some (PositionError TIMEOUT))) start_app))
  = "Activate GPS Location".
Proof.
  pose proof (@locate_failure_is_reported sample_engine sample_conversions offline start_app
                (Some (PositionError TIMEOUT)) I) as (P & T & _).
  rewrite P. exact (conj eq_refl T).
Defined.

Lemma one_picture_witness :
  one_picture start_app /\
  one_picture (exec (@fetchEarthImage one_picture_service) start_app).
Proof.
  assert (H : one_picture start_app).
  { intros id [x L]. unfold start_app in L. cbn [object_urls] in L.
    rewrite lookup_empty in L. discriminate. }
  exact (conj H (@one_picture_is_kept one_picture_service start_app H)).
Defined.

Lemma picture_shows_witness :
  truthy_string (latInput (page_of start_app)) = true /\
  earthImg_src (exec (@fetchEarthImage one_picture_service) start_app) = ObjectURL 0 /\
  object_urls (exec (@fetchEarthImage one_picture_service) start_app) !! 0%nat
  = Some a_picture.
Proof.
  pose proof (@picture_shows_received_bytes one_picture_service start_app
                {| image_status := 200; blob := Some a_picture |} a_picture
                eq_refl eq_refl eq_refl eq_refl eq_refl) as (S & U & _).
  exact (conj eq_refl (conj S U)).
Defined.

Lemma picture_failure_witness :
  no_picture (@service_image no_pictures
                (image_request (latInput (page_of start_app)) (lngInput (page_of start_app)))) /\
  earthImg_src (exec (@fetchEarthImage no_pictures) start_app) = Address "" /\
  textContent (imgInfo (exec (@fetchEarthImage no_pictures) start_app))
  = "Unable to retrieve satellite imagery. Try different coordinates." /\
  disabled (getImageBtn (exec (@fetchEarthImage no_pictures) start_app)) = false.
Proof.
  assert (F : no_picture (@service_image no_pictures
                (image_request (latInput (page_of start_app)) (lngInput (page_of start_app)))))
    by exact I.
  pose proof (@picture_failure_keeps_display no_pictures start_app eq_refl eq_refl F)
    as (_ & S & _ & _ & T & _ & _ & _ & D).
  exact (conj F (conj S (conj T D))).
Defined.

End PageInstances.
